(** * Flask sync API (share/flask_sync_api.py): access control and file exchange

    A shallow embedding of the request handlers of the sync server: token
    issuance and verification, folder resolution, the path checks of the
    download, upload and sync handlers, and the metadata walk.  Handlers are
    functions in a state-and-exception monad over a [world] made of the
    directory tree, the operation log and the trace of storage accesses. *)

From Stdlib Require Import ZArith Ascii String.
From stdpp Require Import base option list gmap strings fin_maps pretty sorting.

Local Open Scope string_scope.

(** ** Python strings *)

Module Str.

(** [s.startswith(pre)] *)
Fixpoint startswith (s pre : string) {struct pre} : bool :=
  match pre with
  | EmptyString => true
  | String a pre' =>
      match s with
      | EmptyString => false
      | String b s' => if decide (a = b) then startswith s' pre' else false
      end
  end.

(** [s.endswith(suf)] for a one-character suffix, the only use in
    [posixpath.join]. *)
Fixpoint endswith_char (s : string) (c : Ascii.ascii) : bool :=
  match s with
  | EmptyString => false
  | String a EmptyString => bool_decide (a = c)
  | String _ s' => endswith_char s' c
  end.

(** [sub in s] *)
Fixpoint contains (sub s : string) : bool :=
  startswith s sub ||
  match s with
  | EmptyString => false
  | String _ s' => contains sub s'
  end.

(** [s.split('/')] *)
Fixpoint split_slash (s : string) : list string :=
  match s with
  | EmptyString => [EmptyString]
  | String c s' =>
      if decide (c = "/"%char) then EmptyString :: split_slash s'
      else match split_slash s' with
           | h :: t => String c h :: t
           | [] => [String c EmptyString]
           end
  end.

(** [sep.join(l)] with [sep = '/'] *)
Fixpoint join_slash (l : list string) : string :=
  match l with
  | [] => EmptyString
  | [x] => x
  | x :: rest => x +:+ "/" +:+ join_slash rest
  end.

(** Truth value of an [Optional[str]]: [None] and [''] are false. *)
Definition truthy (o : option string) : bool :=
  match o with
  | Some (String _ _) => true
  | _ => false
  end.

(** [str(a)] for [a : Optional[str]], as an f-string renders it. *)
Definition of_opt (a : option string) : string :=
  match a with
  | Some s => s
  | None => "None"
  end.

(** The string of a true [Optional[str]]. *)
Definition non_empty (o : option string) : option string :=
  match o with
  | Some (String c s) => Some (String c s)
  | _ => None
  end.

(** [s.replace(c, '')] for a one-character [c] *)
Fixpoint remove_char (c : Ascii.ascii) (s : string) : string :=
  match s with
  | EmptyString => EmptyString
  | String a s' =>
      if decide (a = c) then remove_char c s' else String a (remove_char c s')
  end.

(** [a or b] where [a : Optional[str]] and [b : str]. *)
Definition or_else (a : option string) (b : string) : string :=
  match a with
  | Some (String c s) => String c s
  | _ => b
  end.

End Str.

(** ** Configuration (the module-level constants) *)

Record config := {
  JWT_KEY : string;
  DATA_HOME : string;
  TOKEN_DURATION : Z;
  jwt_users : gmap string string;
  MANAGEMENT_USERS : list string;
  RESTRICTED : bool;
}.

(** The values the module ships with. *)
Definition shipped : config := {|
  JWT_KEY := "MyOwnSecretKey";
  DATA_HOME := "./dataroot";
  TOKEN_DURATION := 300%Z;
  jwt_users :=
    <["androiduser" := "secret"]>
   (<["U001" := "password1"]>
   (<["U002" := "password2"]>
   (<["myuser" := "mysecret"]>
   (<["sync_client" := "sync_password"]> ∅))));
  MANAGEMENT_USERS := ["androiduser"; "sync_client"];
  RESTRICTED := false;
|}.

(** The same deployment with the global restriction switched on. *)
Definition shipped_restricted : config := {|
  JWT_KEY := JWT_KEY shipped;
  DATA_HOME := DATA_HOME shipped;
  TOKEN_DURATION := TOKEN_DURATION shipped;
  jwt_users := jwt_users shipped;
  MANAGEMENT_USERS := MANAGEMENT_USERS shipped;
  RESTRICTED := true;
|}.

(** [login_user in MANAGEMENT_USERS] *)
Definition is_management (cfg : config) (login_user : string) : bool :=
  bool_decide (login_user ∈ MANAGEMENT_USERS cfg).

(** ** Folder resolution *)

(** [get_user_folder(login_user, requested_folder)]; [None] is the denial. *)
Definition get_user_folder (cfg : config) (login_user : string)
    (requested_folder : option string) : option string :=
  if is_management cfg login_user then
    Some (if Str.truthy requested_folder
          then Str.or_else requested_folder login_user else login_user)
  else if RESTRICTED cfg then
    if Str.truthy requested_folder
       && negb (bool_decide (requested_folder = Some login_user))
    then None
    else Some login_user
  else Some (Str.or_else requested_folder login_user).

(** The resolver as the specification words it, over an explicit role. *)
Inductive role := Regular | Management.

Definition role_of (cfg : config) (subject : string) : role :=
  if is_management cfg subject then Management else Regular.

Inductive resolution := Denied | Folder (f : string).

Definition resolve (subject : string) (r : role) (requested : option string)
    (restricted : bool) : resolution :=
  match r with
  | Management =>
      match Str.non_empty requested with
      | Some f => Folder f
      | None => Folder subject
      end
  | Regular =>
      if restricted then
        match Str.non_empty requested with
        | Some f => if decide (f = subject) then Folder subject else Denied
        | None => Folder subject
        end
      else
        match Str.non_empty requested with
        | Some f => Folder f
        | None => Folder subject
        end
  end.

Definition resolution_of (o : option string) : resolution :=
  match o with
  | Some f => Folder f
  | None => Denied
  end.

(** ** Paths ([posixpath])

    A path string is what the handlers build and hand to the operating system;
    a [path] is the list of components from [/] that the string denotes.
    Components are resolved lexically, which is what the kernel does in a tree
    without symbolic links to directories. *)

Abbreviation path := (list string).

Module Path.

(** [posixpath.join(a, b)] *)
Definition join (a b : string) : string :=
  if Str.startswith b "/" then b
  else if bool_decide (a = EmptyString) || Str.endswith_char a "/" then a +:+ b
  else a +:+ "/" +:+ b.

(** [os.path.join(a, *parts)] *)
Definition join_all (a : string) (parts : list string) : string :=
  foldl join a parts.

(** [s.rstrip('/')] *)
Fixpoint rstrip_slash (s : string) : string :=
  match s with
  | EmptyString => EmptyString
  | String c s' =>
      match rstrip_slash s' with
      | EmptyString => if decide (c = "/"%char) then EmptyString else String c EmptyString
      | r => String c r
      end
  end.

(** [posixpath.dirname(p)]: the text up to the last slash, without its
    trailing slashes unless it consists of slashes only. *)
Definition dirname (p : string) : string :=
  let head :=
    match Str.split_slash p with
    | [] | [_] => EmptyString
    | l => Str.join_slash (removelast l) +:+ "/"
    end in
  match rstrip_slash head with
  | EmptyString => head
  | h => h
  end.

(** One component of the walk from the current location. *)
Definition step (cur : path) (seg : string) : path :=
  if bool_decide (seg = EmptyString) || bool_decide (seg = ".") then cur
  else if bool_decide (seg = "..") then removelast cur
  else (cur ++ [seg])%list.

(** The location a path string denotes for a process running in [cwd]. *)
Definition resolve (cwd : path) (s : string) : path :=
  foldl step (if Str.startswith s "/" then [] else cwd) (Str.split_slash s).

(** Length of the longest common prefix of two locations. *)
Fixpoint common (a b : path) : nat :=
  match a, b with
  | x :: a', y :: b' => if decide (x = y) then S (common a' b') else O
  | _, _ => O
  end.

(** [os.path.relpath(p, start)] *)
Definition relpath (cwd : path) (p start : string) : string :=
  let pl := resolve cwd p in
  let sl := resolve cwd start in
  let i := common sl pl in
  match (replicate (length sl - i) ".." ++ drop i pl)%list with
  | [] => "."
  | rel => Str.join_slash rel
  end.

(** [under root p]: [p] is [root] or lies below it. *)
Fixpoint under (root p : path) : bool :=
  match root with
  | [] => true
  | r :: root' =>
      match p with
      | [] => false
      | x :: p' => bool_decide (r = x) && under root' p'
      end
  end.

End Path.

(** [s.replace('\\', '/')] *)
Fixpoint replace_backslash (s : string) : string :=
  match s with
  | EmptyString => EmptyString
  | String c s' =>
      String (if decide (c = "\"%char) then "/"%char else c) (replace_backslash s')
  end.

(** ** The directory tree *)

(** A directory entry: a regular file with its bytes and modification time, a
    symbolic link whose target is missing, or a directory.  Entry names in a
    directory are distinct; lookups take the first. *)
#[warnings="-register-all"]
Inductive node :=
| File (content : list Byte.byte) (mtime : Z)
| Dangling
| Dir (entries : list (string * node)).

Module Tree.

Fixpoint get_child (es : list (string * node)) (k : string) : option node :=
  match es with
  | [] => None
  | (k', c) :: es' => if decide (k' = k) then Some c else get_child es' k
  end.

Fixpoint set_child (es : list (string * node)) (k : string) (v : node)
    : list (string * node) :=
  match es with
  | [] => [(k, v)]
  | (k', c) :: es' =>
      if decide (k' = k) then (k, v) :: es' else (k', c) :: set_child es' k v
  end.

Fixpoint del_child (es : list (string * node)) (k : string)
    : list (string * node) :=
  match es with
  | [] => []
  | (k', c) :: es' =>
      if decide (k' = k) then es' else (k', c) :: del_child es' k
  end.

(** The entry at a location below [n]. *)
Fixpoint lookup (n : node) (p : path) : option node :=
  match p with
  | [] => Some n
  | s :: rest =>
      match n with
      | Dir es =>
          match get_child es s with
          | Some c => lookup c rest
          | None => None
          end
      | _ => None
      end
  end.

(** Put [v] at a location whose parent directory exists. *)
Fixpoint store (n : node) (p : path) (v : node) : option node :=
  match p with
  | [] => Some v
  | s :: rest =>
      match n with
      | Dir es =>
          match rest, get_child es s with
          | [], _ => Some (Dir (set_child es s v))
          | _, Some c =>
              match store c rest v with
              | Some c' => Some (Dir (set_child es s c'))
              | None => None
              end
          | _, None => None
          end
      | _ => None
      end
  end.

(** [os.makedirs(p, exist_ok=True)]: create the missing directories along
    [p]; fails when a component exists and is not a directory. *)
Fixpoint mkdirs (n : node) (p : path) : option node :=
  match n with
  | Dir es =>
      match p with
      | [] => Some n
      | s :: rest =>
          match mkdirs (default (Dir []) (get_child es s)) rest with
          | Some c' => Some (Dir (set_child es s c'))
          | None => None
          end
      end
  | _ => None
  end.

(** Drop the entry at a location. *)
Fixpoint unlink (n : node) (p : path) : option node :=
  match p with
  | [] => None
  | s :: rest =>
      match n with
      | Dir es =>
          match rest, get_child es s with
          | [], Some _ => Some (Dir (del_child es s))
          | _, Some c =>
              match unlink c rest with
              | Some c' => Some (Dir (set_child es s c'))
              | None => None
              end
          | _, None => None
          end
      | _ => None
      end
  end.

Definition is_dir (n : node) : bool :=
  match n with Dir _ => true | _ => false end.

(** [os.walk(top)] from a directory node: one triple (directory path string,
    sub-directory names, other names) per directory, top-down.  Everything
    that is not a directory is listed among the files, dangling links
    included. *)
Fixpoint walk (root : string) (n : node)
    : list (string * list string * list string) :=
  match n with
  | Dir es =>
      (root,
       (filter (λ e, is_dir e.2 = true) es).*1,
       (filter (λ e, is_dir e.2 = false) es).*1)
      :: (fix sub (l : list (string * node)) :=
            match l with
            | [] => []
            | (k, c) :: l' => (walk (Path.join root k) c ++ sub l')%list
            end) es
  | _ => []
  end.

End Tree.

(** ** Exceptions, the world and the handler monad *)

Inductive exn :=
| KeyError (key : string)
| FileNotFoundError (p : string)
| FileExistsError (p : string)
| IsADirectoryError (p : string)
| NotADirectoryError (p : string).

(** One record of the operation log written by [log_sync_operation]. *)
Record log_entry := {
  timestamp : Z;
  log_user_id : string;
  operation : string;
  details : string;
}.

(** A storage access, with the location it reaches. *)
Inductive access :=
| Probe (p : path)
| Read (p : path)
| Write (p : path)
| Remove (p : path)
| MakeDirs (p : path)
| Walk (p : path).

Definition target (a : access) : path :=
  match a with
  | Probe p | Read p | Write p | Remove p | MakeDirs p | Walk p => p
  end.

(** The process and its surroundings: working directory, clock (seconds),
    the tree below [/], the operation log kept by [log_sync_operation] (the
    daily file under [logs/], held here as the list of its records), and the
    storage accesses made so far. *)
Record world := {
  cwd : path;
  now : Z;
  fs : node;
  oplog : list log_entry;
  io : list access;
}.

Definition with_fs (w : world) (t : node) : world :=
  {| cwd := cwd w; now := now w; fs := t; oplog := oplog w; io := io w |}.

Definition with_oplog (w : world) (l : list log_entry) : world :=
  {| cwd := cwd w; now := now w; fs := fs w; oplog := l; io := io w |}.

Definition with_io (w : world) (l : list access) : world :=
  {| cwd := cwd w; now := now w; fs := fs w; oplog := oplog w; io := l |}.

Inductive result (A : Type) :=
| Return (a : A)
| Raise (e : exn).
Arguments Return {A} a.
Arguments Raise {A} e.

Definition M (A : Type) : Type := world → result A * world.

Definition ret {A} (a : A) : M A := λ w, (Return a, w).

Definition raise {A} (e : exn) : M A := λ w, (Raise e, w).

Definition bind {A B} (m : M A) (k : A → M B) : M B :=
  λ w, match m w with
       | (Return a, w') => k a w'
       | (Raise e, w') => (Raise e, w')
       end.

(** [try: m  except Exception as e: h e] *)
Definition try_except {A} (m : M A) (h : exn → M A) : M A :=
  λ w, match m w with
       | (Return a, w') => (Return a, w')
       | (Raise e, w') => h e w'
       end.

Declare Scope handler_scope.
Notation "x ← y ; z" := (bind y (λ x, z))
  (at level 20, y at level 100, z at level 200, only parsing) : handler_scope.
Notation "x ;; z" := (bind x (λ _, z))
  (at level 100, z at level 200, only parsing, right associativity) : handler_scope.
Local Open Scope handler_scope.

Definition get_now : M Z := λ w, (Return (now w), w).

(** Run a computation that depends on the current world. *)
Definition with_world {A} (f : world → M A) : M A := λ w, f w w.

Definition set_fs (t : node) : M unit := λ w, (Return tt, with_fs w t).

Definition touch (a : access) : M unit :=
  λ w, (Return tt, with_io w (io w ++ [a])%list).

(** The entry a path string reaches, and where. *)
Definition locate (w : world) (s : string) : path * option node :=
  let p := Path.resolve (cwd w) s in (p, Tree.lookup (fs w) p).

(** [os.path.exists(s)]: false for a dangling link. *)
Definition os_path_exists (s : string) : M bool :=
  with_world (λ w,
    let '(p, n) := locate w s in
    touch (Probe p);;
    ret (match n with Some (File _ _) | Some (Dir _) => true | _ => false end)).

(** [os.path.isfile(s)] *)
Definition os_path_isfile (s : string) : M bool :=
  with_world (λ w,
    let '(p, n) := locate w s in
    touch (Probe p);;
    ret (match n with Some (File _ _) => true | _ => false end)).

(** [os.path.isdir(s)] *)
Definition os_path_isdir (s : string) : M bool :=
  with_world (λ w,
    let '(p, n) := locate w s in
    touch (Probe p);;
    ret (match n with Some (Dir _) => true | _ => false end)).

(** [os.stat(s)], as the pair of [st_size] and [st_mtime]. *)
Definition os_stat (s : string) : M (Z * Z) :=
  with_world (λ w,
    let '(p, n) := locate w s in
    touch (Probe p);;
    match n with
    | Some (File c t) => ret (Z.of_nat (length c), t)
    | Some (Dir es) =>
        (* the size and time of a directory are not part of the tree; the
           handlers stat what the walk lists as files *)
        ret (Z.of_nat (length es), 0%Z)
    | _ => raise (FileNotFoundError s)
    end).

(** [open(s, 'rb').read()] *)
Definition read_bytes (s : string) : M (list Byte.byte) :=
  with_world (λ w,
    let '(p, n) := locate w s in
    touch (Read p);;
    match n with
    | Some (File c _) => ret c
    | Some (Dir _) => raise (IsADirectoryError s)
    | _ => raise (FileNotFoundError s)
    end).

(** [FileStorage.save(s)]: open [s] for writing and copy the stream. *)
Definition save (data : list Byte.byte) (s : string) : M unit :=
  with_world (λ w,
    let '(p, n) := locate w s in
    touch (Write p);;
    match n with
    | Some (Dir _) => raise (IsADirectoryError s)
    | Some Dangling => raise (FileNotFoundError s)
    | _ =>
        match Tree.lookup (fs w) (removelast p) with
        | Some (Dir _) =>
            match Tree.store (fs w) p (File data (now w)) with
            | Some t => set_fs t
            | None => raise (FileNotFoundError s)
            end
        | Some _ => raise (NotADirectoryError s)
        | None => raise (FileNotFoundError s)
        end
    end).

(** [os.makedirs(s, exist_ok=True)] *)
Definition os_makedirs (s : string) : M unit :=
  with_world (λ w,
    let p := Path.resolve (cwd w) s in
    touch (MakeDirs p);;
    if bool_decide (s = EmptyString) then raise (FileNotFoundError s)
    else match Tree.mkdirs (fs w) p with
         | Some t => set_fs t
         | None => raise (FileExistsError s)
         end).

(** [os.remove(s)] *)
Definition os_remove (s : string) : M unit :=
  with_world (λ w,
    let '(p, n) := locate w s in
    touch (Remove p);;
    match n with
    | Some (File _ _) | Some Dangling =>
        match Tree.unlink (fs w) p with
        | Some t => set_fs t
        | None => raise (FileNotFoundError s)
        end
    | Some (Dir _) => raise (IsADirectoryError s)
    | None => raise (FileNotFoundError s)
    end).

(** [os.walk(s)]: nothing when [s] is not a directory. *)
Definition os_walk (s : string) : M (list (string * list string * list string)) :=
  with_world (λ w,
    let '(p, n) := locate w s in
    touch (Walk p);;
    ret (match n with Some t => Tree.walk s t | None => [] end)).

(** [log_sync_operation(user_id, operation, details)]: append one record,
    stamped with the current time, to the operation log. *)
Definition log_sync_operation (user_id operation details : string) : M unit :=
  λ w, (Return tt,
        with_oplog w
          (oplog w ++ [{| timestamp := now w; log_user_id := user_id;
                          operation := operation; details := details |}])).

(** [os.listdir(s)] *)
Definition os_listdir (s : string) : M (list string) :=
  with_world (λ w,
    let '(p, n) := locate w s in
    touch (Walk p);;
    match n with
    | Some (Dir es) => ret es.*1
    | Some (File _ _) => raise (NotADirectoryError s)
    | _ => raise (FileNotFoundError s)
    end).

(** [for x in l: acc = body acc x] *)
Fixpoint fold_each {A S} (l : list A) (acc : S) (body : S → A → M S) : M S :=
  match l with
  | [] => ret acc
  | x :: l' => acc' ← body acc x; fold_each l' acc' body
  end.

(** ** Tokens (PyJWT) *)

(** The claims set of a token.  [None] stands for a key that is absent (or,
    for the folder, null). *)
Record claims := {
  claim_user_id : option string;
  claim_user_folder : option string;
  claim_exp : option Z;
}.

(** A token string: three segments carrying the header's algorithm, the
    claims and the signature, or text that does not parse as such. *)
Inductive jwt :=
| Compact (alg : string) (payload : claims) (signature : string)
| Garbled (raw : string).

Inductive jwt_error :=
| DecodeError
| InvalidAlgorithmError
| InvalidSignatureError
| ExpiredSignatureError.

(** What the handlers take from libraries and built-ins without this
    development looking inside. *)
Class Library := {
  (** HMAC-SHA256 of the signing input (header and claims) under a key *)
  hmac_sha256 : string → string → claims → string;
  (** [hashlib.sha256(content).hexdigest()] *)
  sha256_hexdigest : list Byte.byte → string;
  (** [str(e)] *)
  str_exn : exn → string;
  (** [str(l)] for a list of strings *)
  str_list : list string → string;
  (** [s.isalnum()] *)
  isalnum : string → bool;
}.

Section Server.
Context {lib : Library}.
Variable cfg : config.

(** [jwt.encode(payload, key, algorithm="HS256")] *)
Definition jwt_encode (payload : claims) (key : string) : jwt :=
  Compact "HS256" payload (hmac_sha256 key "HS256" payload).

(** [jwt.decode(token, key, algorithms=["HS256"])] at time [t]: parse, check
    the algorithm, check the signature, then the expiry. *)
Definition jwt_decode (t : Z) (token : jwt) (key : string) : jwt_error + claims :=
  match token with
  | Garbled _ => inl DecodeError
  | Compact alg payload signature =>
      if negb (bool_decide (alg ∈ ["HS256"])) then inl InvalidAlgorithmError
      else if negb (bool_decide (signature = hmac_sha256 key alg payload))
      then inl InvalidSignatureError
      else match claim_exp payload with
           | Some e => if (e <=? t)%Z then inl ExpiredSignatureError else inr payload
           | None => inr payload
           end
  end.

(** [verify_token(token_str)] at time [t] *)
Definition verify_token (t : Z) (token_str : jwt) : option (string * option string) :=
  match jwt_decode t token_str (JWT_KEY cfg) with
  | inr payload =>
      match claim_user_id payload with
      | Some user_id => Some (user_id, claim_user_folder payload)
      | None => None                      (* KeyError: except Exception *)
      end
  | inl ExpiredSignatureError => None     (* except jwt.ExpiredSignatureError *)
  | inl _ => None                         (* except jwt.InvalidTokenError *)
  end.

(** ** Requests and responses *)

Record file_storage := {
  filename : string;
  stream : list Byte.byte;
}.

(** [request.form] and [request.files].  The [token] field of the form is
    kept apart, as the token it spells; the files come in arrival order, a key
    standing for its first file. *)
Record request := {
  form : gmap string string;
  form_token : option jwt;
  files : list (string * file_storage);
}.

(** The JSON object of one file in the metadata reply: its [size], [mtime]
    and [hash] members. *)
Record file_record := {
  meta_size : Z;
  meta_mtime : Z;
  meta_hash : string;
}.

Inductive body :=
| NoBody
| TokenBody (token : jwt) (user_folder : string)
| FilesBody (files : list string)
| UploadedBody (uploaded_files : list string) (upload_folder : string)
| UploadsBody (uploads : gmap string (list string))
| PathBody (path : string)
| MetadataBody (metadata : gmap string file_record)
| FolderBody (folder : string).

(** What a request gets back: a JSON envelope, a file, or the 500 page of an
    exception no handler caught. *)
Inductive response :=
| jsonify (error : bool) (message : string) (extra : body)
| send_file_response (content : list Byte.byte)
| internal_server_error (e : exn).

(** [request.files[key]] *)
Fixpoint files_get (l : list (string * file_storage)) (key : string)
    : option file_storage :=
  match l with
  | [] => None
  | (k, f) :: l' => if decide (k = key) then Some f else files_get l' key
  end.

(** [request.files.keys()] *)
Fixpoint files_keys (l : list (string * file_storage)) : list string :=
  match l with
  | [] => []
  | (k, _) :: l' => k :: filter (λ k', k' ≠ k) (files_keys l')
  end.

(** [send_file(s)] *)
Definition send_file (s : string) : M response :=
  content ← read_bytes s; ret (send_file_response content).

(** The reply of an [except KeyError as e] clause. *)
Definition missing_parameter (key : string) : response :=
  jsonify true ("Missing parameter: " +:+ str_exn (KeyError key)) NoBody.

Definition invalid_token : response :=
  jsonify true "Invalid or expired token." NoBody.

(** A handler as the framework runs it: an exception becomes a 500. *)
Definition serve (h : request → M response) (req : request) (w : world)
    : response * world :=
  match h req w with
  | (Return r, w') => (r, w')
  | (Raise e, w') => (internal_server_error e, w')
  end.

End Server.

(** ** The handlers *)

Section Handlers.
Context {lib : Library}.
Variable cfg : config.

(** [ensure_user_directories(user_folder)] *)
Definition ensure_user_directories (user_folder : string) : M unit :=
  if negb (Str.truthy (Some user_folder)) then ret tt
  else
    os_makedirs (Path.join_all (DATA_HOME cfg) ["downloads"; "users"; user_folder]);;
    os_makedirs (Path.join_all (DATA_HOME cfg) ["uploads"; user_folder]).

(** [os.path.exists(s) and os.path.isfile(s)] *)
Definition exists_and_isfile (s : string) : M bool :=
  e ← os_path_exists s;
  if e then os_path_isfile s else ret false.

(** [POST /api/v1/token] *)
Definition token (req : request) : M response :=
  match form req !! "user" with
  | None => ret (missing_parameter "user")
  | Some user_id =>
  match form req !! "password" with
  | None => ret (missing_parameter "password")
  | Some password =>
  let requested_folder := form req !! "folder" in
  if match jwt_users cfg !! user_id with
     | None => true
     | Some secret => negb (bool_decide (secret = password))
     end
  then
    log_sync_operation user_id "AUTH_FAILED" "Invalid credentials";;
    ret (jsonify true "Invalid credentials." NoBody)
  else
  match get_user_folder cfg user_id requested_folder with
  | None =>
      log_sync_operation user_id "AUTH_FAILED"
        "Restricted mode: can only access own folder";;
      ret (jsonify true
             "In restricted mode, users can only access their own folder." NoBody)
  | Some user_folder =>
      (if Str.truthy (Some user_folder)
       then ensure_user_directories user_folder else ret tt);;
      t ← get_now;
      let payload := {| claim_user_id := Some user_id;
                        claim_user_folder := Some user_folder;
                        claim_exp := Some (t + TOKEN_DURATION cfg)%Z |} in
      let token := jwt_encode payload (JWT_KEY cfg) in
      let log_info := "Token generated for " +:+ pretty (TOKEN_DURATION cfg) +:+ "s" in
      let log_info :=
        if Str.truthy (Some user_folder)
        then log_info +:+ ", folder: " +:+ user_folder else log_info in
      log_sync_operation user_id "AUTH_SUCCESS" log_info;;
      ret (jsonify false
             ("Token valid for " +:+ pretty (TOKEN_DURATION cfg) +:+ " seconds.")
             (TokenBody token user_folder))
  end
  end
  end.

(** [POST /api/v1/downloads] *)
Definition list_downloads (req : request) : M response :=
  match form_token req with
  | None => ret (jsonify true "Missing token parameter." NoBody)
  | Some token_str =>
  t ← get_now;
  match verify_token cfg t token_str with
  | None => ret invalid_token
  | Some (user_id, user_folder) =>
  let downloads_dir := Path.join_all (DATA_HOME cfg) ["downloads"] in
  e ← os_path_exists downloads_dir;
  files ←
    (if e then
       items ← os_listdir downloads_dir;
       fold_each items [] (λ files item,
         b ← os_path_isfile (Path.join downloads_dir item);
         ret (if b then (files ++ ["downloads/" +:+ item])%list else files))
     else ret []);
  files ←
    match Str.non_empty user_folder with
    | Some folder =>
        let user_downloads :=
          Path.join_all (DATA_HOME cfg) ["downloads"; "users"; folder] in
        e ← os_path_exists user_downloads;
        if e then
          items ← os_listdir user_downloads;
          fold_each items files (λ files item,
            b ← os_path_isfile (Path.join user_downloads item);
            ret (if b
                 then (files ++ ["downloads/users/" +:+ folder +:+ "/" +:+ item])%list
                 else files))
        else ret files
    | None => ret files
    end;
  log_sync_operation user_id "LIST_DOWNLOADS"
    ("Found " +:+ pretty (length files) +:+ " files, folder: "
     +:+ Str.of_opt user_folder);;
  ret (jsonify false "Files available for download." (FilesBody files))
  end
  end.

(** [POST /api/v1/download_auto] *)
Definition download_file_auto (req : request) : M response :=
  match form_token req with
  | None => ret (missing_parameter "token")
  | Some token_str =>
  match form req !! "file" with
  | None => ret (missing_parameter "file")
  | Some filename =>
  t ← get_now;
  match verify_token cfg t token_str with
  | None => ret invalid_token
  | Some (user_id, user_folder) =>
  if Str.contains ".." filename || Str.contains "/" filename
     || Str.contains "\" filename
  then ret (jsonify true "Invalid filename. Use filename only, no paths." NoBody)
  else
  let global :=
    let global_file_path := Path.join_all (DATA_HOME cfg) ["downloads"; filename] in
    b ← exists_and_isfile global_file_path;
    if b then
      log_sync_operation user_id "DOWNLOAD_AUTO"
        ("Global file: downloads/" +:+ filename);;
      send_file global_file_path
    else
      log_sync_operation user_id "DOWNLOAD_AUTO_NOT_FOUND"
        ("File: " +:+ filename +:+ ", folder: " +:+ Str.of_opt user_folder);;
      ret (jsonify true
             ("File '" +:+ filename +:+ "' not found in user or global directories.")
             NoBody) in
  match Str.non_empty user_folder with
  | Some folder =>
      let user_file_path :=
        Path.join_all (DATA_HOME cfg) ["downloads"; "users"; folder; filename] in
      b ← exists_and_isfile user_file_path;
      if b then
        log_sync_operation user_id "DOWNLOAD_AUTO"
          ("User file: downloads/users/" +:+ folder +:+ "/" +:+ filename);;
        send_file user_file_path
      else global
  | None => global
  end
  end
  end
  end.

(** The [allowed] test of [download_file]. *)
Definition download_allowed (file_path : string) (user_folder : option string) : bool :=
  Str.startswith file_path "downloads/"
  && (negb (Str.startswith file_path "downloads/users/")
      || match Str.non_empty user_folder with
         | Some folder =>
             Str.startswith file_path ("downloads/users/" +:+ folder +:+ "/")
         | None => false
         end).

(** [POST /api/v1/download] *)
Definition download_file (req : request) : M response :=
  match form_token req with
  | None => ret (missing_parameter "token")
  | Some token_str =>
  match form req !! "file" with
  | None => ret (missing_parameter "file")
  | Some file_path =>
  t ← get_now;
  match verify_token cfg t token_str with
  | None => ret invalid_token
  | Some (user_id, user_folder) =>
  if negb (download_allowed file_path user_folder)
  then ret (jsonify true "Access denied to requested file." NoBody)
  else
  let full_path := Path.join (DATA_HOME cfg) file_path in
  b ← exists_and_isfile full_path;
  if negb b then ret (jsonify true "File not found." NoBody)
  else
    log_sync_operation user_id "DOWNLOAD"
      ("File: " +:+ file_path +:+ ", folder: " +:+ Str.of_opt user_folder);;
    send_file full_path
  end
  end
  end.

(** [POST /api/v1/upload] *)
Definition upload_files (req : request) : M response :=
  match form_token req with
  | None => ret (jsonify true "Missing token parameter." NoBody)
  | Some token_str =>
  t ← get_now;
  match verify_token cfg t token_str with
  | None => ret invalid_token
  | Some (user_id, user_folder) =>
  if bool_decide (files req = []) then ret (jsonify true "No files provided." NoBody)
  else
  let upload_folder := Str.or_else user_folder user_id in
  let upload_dir := Path.join_all (DATA_HOME cfg) ["uploads"; upload_folder] in
  os_makedirs upload_dir;;
  uploaded_files ←
    fold_each (files_keys (files req)) [] (λ uploaded_files key,
      match files_get (files req) key with
      | Some file =>
          if Str.truthy (Some (filename file)) then
            let file_path := Path.join upload_dir (filename file) in
            save (stream file) file_path;;
            ret (uploaded_files ++ [filename file])%list
          else ret uploaded_files
      | None => raise (KeyError key)
      end);
  log_sync_operation user_id "UPLOAD"
    ("Files: " +:+ str_list uploaded_files +:+ ", folder: " +:+ upload_folder);;
  ret (jsonify false "Files uploaded successfully."
         (UploadedBody uploaded_files upload_folder))
  end
  end.

(** [POST /api/v1/uploads] *)
Definition list_uploads (req : request) : M response :=
  match form_token req with
  | None => ret (jsonify true "Missing token parameter." NoBody)
  | Some token_str =>
  t ← get_now;
  match verify_token cfg t token_str with
  | None => ret invalid_token
  | Some (user_id, user_folder) =>
  if negb (is_management cfg user_id) then ret (jsonify true "Access denied." NoBody)
  else
  let uploads_dir := Path.join_all (DATA_HOME cfg) ["uploads"] in
  e ← os_path_exists uploads_dir;
  all_uploads ←
    (if e then
       names ← os_listdir uploads_dir;
       fold_each names (∅ : gmap string (list string)) (λ all_uploads user_folder_name,
         let user_upload_path := Path.join uploads_dir user_folder_name in
         d ← os_path_isdir user_upload_path;
         if d then
           items ← os_listdir user_upload_path;
           found ← fold_each items [] (λ found f,
             b ← os_path_isfile (Path.join user_upload_path f);
             ret (if b then (found ++ [f])%list else found));
           ret (if bool_decide (found = []) then all_uploads
                else <[user_folder_name := found]> all_uploads)
         else ret all_uploads)
     else ret ∅);
  log_sync_operation user_id "LIST_UPLOADS"
    ("Found uploads for " +:+ pretty (size all_uploads) +:+ " folders");;
  ret (jsonify false "Upload files listed." (UploadsBody all_uploads))
  end
  end.

(** [POST /api/v1/sync_upload] *)
Definition sync_upload (req : request) : M response :=
  match form_token req with
  | None => ret (missing_parameter "token")
  | Some token_str =>
  match form req !! "target_path" with
  | None => ret (missing_parameter "target_path")
  | Some target_path =>
  t ← get_now;
  match verify_token cfg t token_str with
  | None => ret invalid_token
  | Some (user_id, user_folder) =>
  if negb (is_management cfg user_id) then ret (jsonify true "Access denied." NoBody)
  else
  match files_get (files req) "file" with
  | None => ret (jsonify true "No file provided." NoBody)
  | Some file =>
  if negb (Str.truthy (Some (filename file)))
  then ret (jsonify true "Empty file." NoBody)
  else if Str.contains ".." target_path || Str.startswith target_path "/"
  then ret (jsonify true "Invalid target path." NoBody)
  else if Str.startswith target_path "uploads/" || Str.startswith target_path "logs/"
  then ret (jsonify true "Cannot sync to uploads or logs directories." NoBody)
  else
  let full_path := Path.join (DATA_HOME cfg) target_path in
  os_makedirs (Path.dirname full_path);;
  save (stream file) full_path;;
  log_sync_operation user_id "SYNC_UPLOAD" ("File: " +:+ target_path);;
  ret (jsonify false "File synced successfully." (PathBody target_path))
  end
  end
  end
  end.

(** [POST /api/v1/sync_delete] *)
Definition sync_delete (req : request) : M response :=
  match form_token req with
  | None => ret (missing_parameter "token")
  | Some token_str =>
  match form req !! "file" with
  | None => ret (missing_parameter "file")
  | Some file_path =>
  t ← get_now;
  match verify_token cfg t token_str with
  | None => ret invalid_token
  | Some (user_id, user_folder) =>
  if negb (is_management cfg user_id) then ret (jsonify true "Access denied." NoBody)
  else if Str.contains ".." file_path || Str.startswith file_path "/"
  then ret (jsonify true "Invalid file path." NoBody)
  else if negb (Str.startswith file_path "uploads/" || Str.startswith file_path "logs/")
  then ret (jsonify true "Can only delete from uploads or logs directories." NoBody)
  else
  let full_path := Path.join (DATA_HOME cfg) file_path in
  e ← os_path_exists full_path;
  if negb e then ret (jsonify true "File not found." NoBody)
  else
  f ← os_path_isfile full_path;
  if negb f then ret (jsonify true "Path is not a file." NoBody)
  else
  os_remove full_path;;
  log_sync_operation user_id "SYNC_DELETE" ("File: " +:+ file_path);;
  ret (jsonify false "File deleted successfully." NoBody)
  end
  end
  end.

(** The body of the inner loop of [file_metadata]: one file of the walk. *)
Definition metadata_entry (user_id root : string)
    (metadata : gmap string file_record) (file : string)
    : M (gmap string file_record) :=
  with_world (λ w,
    let file_path := Path.join root file in
    let rel_path :=
      replace_backslash (Path.relpath (cwd w) file_path (DATA_HOME cfg)) in
    try_except
      (stat ← os_stat file_path;
       content ← read_bytes file_path;
       let file_hash := sha256_hexdigest content in
       ret (<[rel_path := {| meta_size := stat.1; meta_mtime := stat.2;
                          meta_hash := file_hash |}]>
              metadata))
      (λ e,
         log_sync_operation user_id "METADATA_ERROR"
           ("File: " +:+ rel_path +:+ ", Error: " +:+ str_exn e);;
         ret metadata)).

(** [POST /api/v1/file_metadata] *)
Definition file_metadata (req : request) : M response :=
  match form_token req with
  | None => ret (missing_parameter "token")
  | Some token_str =>
  t ← get_now;
  match verify_token cfg t token_str with
  | None => ret invalid_token
  | Some (user_id, user_folder) =>
  if negb (is_management cfg user_id) then ret (jsonify true "Access denied." NoBody)
  else
  let downloads_dir := Path.join_all (DATA_HOME cfg) ["downloads"] in
  e ← os_path_exists downloads_dir;
  metadata ←
    (if e then
       triples ← os_walk downloads_dir;
       fold_each triples (∅ : gmap string file_record) (λ metadata triple,
         let '(root, dirs, files) := triple in
         fold_each files metadata (metadata_entry user_id root))
     else ret ∅);
  log_sync_operation user_id "METADATA_REQUEST"
    ("Files: " +:+ pretty (size metadata));;
  ret (jsonify false "Metadata retrieved." (MetadataBody metadata))
  end
  end.

(** [POST /api/v1/create_folder] *)
Definition create_folder (req : request) : M response :=
  match form_token req with
  | None => ret (missing_parameter "token")
  | Some token_str =>
  match form req !! "folder" with
  | None => ret (missing_parameter "folder")
  | Some folder_name =>
  t ← get_now;
  match verify_token cfg t token_str with
  | None => ret invalid_token
  | Some (user_id, user_folder) =>
  if negb (is_management cfg user_id) then ret (jsonify true "Access denied." NoBody)
  else if negb (Str.truthy (Some folder_name))
          || negb (isalnum (Str.remove_char "-" (Str.remove_char "_" folder_name)))
  then ret (jsonify true "Invalid folder name. Use only letters, numbers, _ and -" NoBody)
  else
  ensure_user_directories folder_name;;
  log_sync_operation user_id "CREATE_FOLDER" ("Created folder: " +:+ folder_name);;
  ret (jsonify false ("Folder '" +:+ folder_name +:+ "' created successfully.")
         (FolderBody folder_name))
  end
  end
  end.

End Handlers.

(** ** A deployment to run the handlers on *)

(** Stand-ins for the library functions, good enough to execute requests. *)
Definition demo_library : Library := {|
  hmac_sha256 key alg payload :=
    key +:+ "." +:+ alg +:+ "." +:+ Str.of_opt (claim_user_id payload)
    +:+ "." +:+ Str.of_opt (claim_user_folder payload)
    +:+ "." +:+ from_option pretty "" (claim_exp payload);
  sha256_hexdigest content := pretty (length content);
  str_exn e :=
    match e with
    | KeyError k => "'" +:+ k +:+ "'"
    | FileNotFoundError p => "No such file or directory: '" +:+ p +:+ "'"
    | FileExistsError p => "File exists: '" +:+ p +:+ "'"
    | IsADirectoryError p => "Is a directory: '" +:+ p +:+ "'"
    | NotADirectoryError p => "Not a directory: '" +:+ p +:+ "'"
    end;
  str_list l := "[" +:+ Str.join_slash l +:+ "]";
  isalnum s := negb (Str.contains " " s);
|}.

Definition bytes (s : string) : list Byte.byte := list_byte_of_string s.

(** The tree after [setup_directories], with a few files in place, served
    from [/srv/app]; [secret.key] sits next to the data root, outside it. *)
Definition demo_tree : node :=
  Dir [("srv", Dir [("app", Dir [
    ("secret.key", File (bytes "k3y") 5);
    ("dataroot", Dir [
      ("downloads", Dir [
        ("catalog.csv", File (bytes "global catalog") 10);
        ("prices.csv", File (bytes "global prices") 11);
        ("stale.lnk", Dangling);
        ("users", Dir [
          ("U001", Dir [("catalog.csv", File (bytes "catalog of U001") 12)]);
          ("U002", Dir []);
          ("myuser", Dir [])])]);
      ("uploads", Dir [
        ("U001", Dir []);
        ("U002", Dir [("orders.csv", File (bytes "orders of U002") 13)]);
        ("myuser", Dir [])]);
      ("logs", Dir [])])])])].

Definition demo_world : world :=
  {| cwd := ["srv"; "app"]; now := 1000; fs := demo_tree; oplog := []; io := [] |}.

(** The data root of a world: where [DATA_HOME] leads. *)
Definition data_root (cfg : config) (w : world) : path :=
  Path.resolve (cwd w) (DATA_HOME cfg).

(** A token as [token] mints it at time [t]. *)
Definition demo_token (user folder : string) (t : Z) : jwt :=
  @jwt_encode demo_library
    {| claim_user_id := Some user; claim_user_folder := Some folder;
       claim_exp := Some (t + TOKEN_DURATION shipped)%Z |}
    (JWT_KEY shipped).

Definition demo_request (tok : option jwt) (fields : list (string * string))
    (uploads : list (string * file_storage)) : request :=
  {| form := list_to_map fields; form_token := tok; files := uploads |}.

(** ** Vocabulary of the properties *)

(** The entry a path string names in a world. *)
Definition node_at (w : world) (s : string) : option node := (locate w s).2.

(** The path string names a regular file. *)
Definition is_file (w : world) (s : string) : bool :=
  match node_at w s with Some (File _ _) => true | _ => false end.

(** The bytes of the regular file a path string names. *)
Definition file_bytes (w : world) (s : string) : option (list Byte.byte) :=
  match node_at w s with Some (File c _) => Some c | _ => None end.

(** A path with a parent-directory segment. *)
Definition has_parent_segment (s : string) : Prop := ".." ∈ Str.split_slash s.

(** The operations that take a token. *)
Inductive endpoint :=
| ListDownloads | DownloadAuto | Download | Upload | ListUploads
| SyncUpload | SyncDelete | FileMetadata | CreateFolder.

Definition handler {lib : Library} (cfg : config) (e : endpoint) : request → M response :=
  match e with
  | ListDownloads => list_downloads cfg
  | DownloadAuto => download_file_auto cfg
  | Download => download_file cfg
  | Upload => upload_files cfg
  | ListUploads => list_uploads cfg
  | SyncUpload => sync_upload cfg
  | SyncDelete => sync_delete cfg
  | FileMetadata => file_metadata cfg
  | CreateFolder => create_folder cfg
  end.

(** The form field a handler reads next to the token, before it verifies. *)
Definition required_field (e : endpoint) : option string :=
  match e with
  | DownloadAuto | Download | SyncDelete => Some "file"
  | SyncUpload => Some "target_path"
  | CreateFolder => Some "folder"
  | ListDownloads | Upload | ListUploads | FileMetadata => None
  end.

Definition has_required_field (e : endpoint) (req : request) : Prop :=
  match required_field e with
  | Some k => is_Some (form req !! k)
  | None => True
  end.








Definition expired_token_request : request :=
  demo_request (Some (demo_token "U001" "U001" 0)) [("file", "downloads/catalog.csv")] [].


(** A request of U001 for a catalogue that exists in its folder and globally. *)
Definition catalog_request : request :=
  demo_request (Some (demo_token "U001" "U001" 1000)) [("file", "catalog.csv")] [].

(** A sync client trying to place a file above the data root. *)
Definition sync_escape_request : request :=
  demo_request (Some (demo_token "sync_client" "sync_client" 1000))
    [("target_path", "downloads/../../evil.py")]
    [("file", {| filename := "evil.py"; stream := bytes "x" |})].

(** The claims [token] signs for a subject and its folder at time [t]. *)
Definition minted {lib : Library} (cfg : config) (user folder : string) (t : Z) : jwt :=
  jwt_encode
    {| claim_user_id := Some user; claim_user_folder := Some folder;
       claim_exp := Some (t + TOKEN_DURATION cfg)%Z |}
    (JWT_KEY cfg).

(** U001 logging in without asking for a folder. *)
Definition login_request : request :=
  demo_request None [("user", "U001"); ("password", "password1")] [].

(** *** The metadata walk, read as a function of the tree

    What the loops of [file_metadata] compute, written without the monad:
    the map they build and the records they log.  [file_metadata_run] below
    shows the handler computes exactly these. *)

Section Walk.
Context {lib : Library} (cfg : config) (cw : path) (t : node) (clock : Z)
  (user_id : string).








(** The triples [os.walk] yields for the downloads directory. *)
Definition listing : list (string * list string * list string) :=
  let downloads_dir := Path.join_all (DATA_HOME cfg) ["downloads"] in
  match Tree.lookup t (Path.resolve cw downloads_dir) with
  | Some d => Tree.walk downloads_dir d
  | None => []
  end.



End Walk.

(** A sync client asking for the metadata of the downloads tree. *)
Definition metadata_request : request :=
  demo_request (Some (demo_token "sync_client" "sync_client" 1000)) [] [].

(** U001 asking [download_file] for a path that climbs out of the data root. *)
Definition escape_request : request :=
  demo_request (Some (demo_token "U001" "U001" 1000))
    [("file", "downloads/../../secret.key")] [].

(** U001 uploading a file whose name climbs out of the data root. *)
Definition upload_escape_request : request :=
  demo_request (Some (demo_token "U001" "U001" 1000)) []
    [("f", {| filename := "../../../evil.py"; stream := bytes "x" |})].

(** The accesses a run made, and whether they all stay under the data root. *)
Definition accesses (w w' : world) : list access := drop (length (io w)) (io w').

Definition confined (cfg : config) (w w' : world) : bool :=
  forallb (λ a, Path.under (data_root cfg w) (target a)) (accesses w w').

(** U001 holding a token whose folder is an absolute path. *)
Definition absolute_folder_request : request :=
  demo_request (Some (demo_token "U001" "/srv/app" 1000)) [("file", "secret.key")] [].

(** U001 logging in and asking for that folder. *)
Definition absolute_folder_login : request :=
  demo_request None
    [("user", "U001"); ("password", "password1"); ("folder", "/srv/app")] [].

(** The operations reserved to Management subjects. *)
Definition privileged (e : endpoint) : bool :=
  match e with
  | ListUploads | SyncUpload | SyncDelete | FileMetadata | CreateFolder => true
  | ListDownloads | DownloadAuto | Download | Upload => false
  end.

(** U002 asking for the metadata of the tree. *)
Definition regular_metadata_request : request :=
  demo_request (Some (demo_token "U002" "U002" 1000)) [] [].


(** U001 asking [download_file_auto] for a path instead of a name. *)
Definition path_as_name_request : request :=
  demo_request (Some (demo_token "U001" "U001" 1000))
    [("file", "users/U002/orders.csv")] [].

(** The path string names a directory. *)
Definition dir_at (w : world) (s : string) : bool :=
  match node_at w s with Some (Dir _) => true | _ => false end.


(** The sync client placing a price list, and U002 fetching it. *)
Definition place_prices_request : request :=
  demo_request (Some (demo_token "sync_client" "sync_client" 1000))
    [("target_path", "downloads/2026/prices.csv")]
    [("file", {| filename := "prices.csv"; stream := bytes "new prices" |})].

Definition fetch_prices_request : request :=
  demo_request (Some (demo_token "U002" "U002" 1000))
    [("file", "downloads/2026/prices.csv")] [].



(** [setup_directories()].  [keys] is [jwt_users.keys()]: the order of a
    Python dict, which the map of the configuration does not keep. *)
Definition setup_directories (cfg : config) (keys : list string) : M unit :=
  let dirs := ["downloads"; "uploads"; "downloads/users"; "logs"] in
  fold_each dirs tt (λ _ dir_path,
    let full_path := Path.join (DATA_HOME cfg) dir_path in
    os_makedirs full_path);;
  fold_each keys tt (λ _ login_user,
    if negb (is_management cfg login_user)
    then ensure_user_directories cfg login_user
    else ret tt).

(** The tree of [w'] is that of [w] with, at most, directories added: the
    process is where it was, every directory is still one and every regular
    file is as it was. *)
Definition grows (w w' : world) : Prop :=
  cwd w' = cwd w ∧ now w' = now w
  ∧ (∀ q, dir_at w q = true → dir_at w' q = true)
  ∧ (∀ q, is_file w q = true → node_at w' q = node_at w q).

(** The logins of the shipped configuration, as the module lists them. *)
Definition shipped_keys : list string :=
  ["androiduser"; "U001"; "U002"; "myuser"; "sync_client"].

(** A server started in an empty [/srv/app]. *)
Definition bare_world : world :=
  {| cwd := ["srv"; "app"]; now := 0; fs := Dir [("srv", Dir [("app", Dir [])])];
     oplog := []; io := [] |}.

(** The sync client creating the folders of a new terminal. *)
Definition new_folder_request : request :=
  demo_request (Some (demo_token "sync_client" "sync_client" 1000))
    [("folder", "T-900")] [].



(** Every run of a computation takes a world to one related to it by [R]. *)
Definition preserves {A} (R : world → world → Prop) (m : M A) : Prop :=
  ∀ w r w', m w = (r, w') → R w w'.

(** The tree is as it was. *)
Definition same_tree (w w' : world) : Prop := fs w' = fs w.

(** Since [w], only locations under the data root were reached. *)
Definition inside (cfg : config) (w w' : world) : Prop :=
  cwd w' = cwd w
  ∧ ∃ l, io w' = (io w ++ l)%list
         ∧ forallb (λ a, Path.under (data_root cfg w) (target a)) l = true.

(** A path string that names a location under the data root, wherever the
    process runs. *)
Definition safe (cfg : config) (s : string) : Prop :=
  ∀ cw, Path.under (Path.resolve cw (DATA_HOME cfg)) (Path.resolve cw s) = true.

(** The operations that list or send files. *)
Definition reading (e : endpoint) : bool :=
  match e with
  | ListDownloads | DownloadAuto | Download | ListUploads | FileMetadata => true
  | Upload | SyncUpload | SyncDelete | CreateFolder => false
  end.



(** U001 uploading three files, two of them under the same key. *)
Definition three_uploads_request : request :=
  demo_request (Some (demo_token "U001" "U001" 1000)) []
    [("a", {| filename := "a.csv"; stream := bytes "1" |});
     ("a", {| filename := "dup.csv"; stream := bytes "x" |});
     ("b", {| filename := "b.csv"; stream := bytes "2" |})].


(** A tree in which no entry name holds a separator, as in any file
    system. *)
Fixpoint plain_names (n : node) : bool :=
  match n with
  | Dir es =>
      (fix all (l : list (string * node)) :=
         match l with
         | [] => true
         | (k, c) :: l' => negb (Str.contains "/" k) && plain_names c && all l'
         end) es
  | _ => true
  end.

(** U001 asking what there is to download, and then for its own catalogue
    by the path of the listing. *)
Definition listing_request : request :=
  demo_request (Some (demo_token "U001" "U001" 1000)) [] [].

Definition own_catalog_request : request :=
  demo_request (Some (demo_token "U001" "U001" 1000))
    [("file", "downloads/users/U001/catalog.csv")] [].


(** A string that can be the name of a directory entry. *)
Definition plain_name (s : string) : bool :=
  negb (Str.contains "/" s) && negb (bool_decide (s = ""))
  && negb (bool_decide (s = ".")) && negb (bool_decide (s = "..")).

(** The names [os.listdir] gives for a directory. *)
Definition listing_of (w : world) (s : string) : list string :=
  match node_at w s with
  | Some (Dir es) => es.*1
  | _ => []
  end.

(** One round of the loop of [list_uploads], read off the tree: the regular
    files of the sub-directory [name] of [dir], entered under [name] unless
    there are none. *)
Definition uploads_entry (w : world) (dir : string)
    (all_uploads : gmap string (list string)) (name : string)
    : gmap string (list string) :=
  let path := Path.join dir name in
  if dir_at w path then
    let found := filter (λ f, is_file w (Path.join path f) = true) (listing_of w path) in
    if bool_decide (found = []) then all_uploads else <[name := found]> all_uploads
  else all_uploads.

(** The sync client asking what was uploaded. *)
Definition uploads_request : request :=
  demo_request (Some (demo_token "sync_client" "sync_client" 1000)) [] [].


(** ** The folder listing *)

(** The order of Python strings, and [sorted(set(l))]. *)
Definition string_le (a b : string) : Prop := String.leb a b = true.

#[global] Instance string_le_dec : RelDecision string_le :=
  λ a b, decide (String.leb a b = true).

Definition sorted_set (l : list string) : list string :=
  merge_sort string_le (remove_dups l).

(** The JSON object [list_folders] answers with ([error] is false). *)
Record folders_reply := {
  folders_message : string;
  existing_folders : list string;
  management_users : list string;
  restricted_mode : bool;
  available_logins : list string;
}.

(** [[d for d in os.listdir(s) if os.path.isdir(os.path.join(s, d))]] *)
Definition subdirectories (s : string) : M (list string) :=
  names ← os_listdir s;
  fold_each names [] (λ found d,
    b ← os_path_isdir (Path.join s d);
    ret (if b then (found ++ [d])%list else found)).

(** [GET /api/v1/folders]; it takes no token.  [keys] is
    [jwt_users.keys()], as for [setup_directories]. *)
Definition list_folders (cfg : config) (keys : list string) : M folders_reply :=
  let existing_folders := [] in
  let downloads_users_dir := Path.join_all (DATA_HOME cfg) ["downloads"; "users"] in
  e ← os_path_exists downloads_users_dir;
  existing_folders ←
    (if e then
       ds ← subdirectories downloads_users_dir;
       ret (existing_folders ++ ds)%list
     else ret existing_folders);
  let uploads_dir := Path.join_all (DATA_HOME cfg) ["uploads"] in
  e ← os_path_exists uploads_dir;
  existing_folders ←
    (if e then
       ds ← subdirectories uploads_dir;
       ret (existing_folders ++ ds)%list
     else ret existing_folders);
  let existing_folders := sorted_set existing_folders in
  ret {| folders_message := "Available folders and info";
         existing_folders := existing_folders;
         management_users := MANAGEMENT_USERS cfg;
         restricted_mode := RESTRICTED cfg;
         available_logins := keys |}.

(** * Properties *)

(** C2: [get_user_folder] is a total function of the subject, its role, the
    requested folder and the restricted flag, and computes exactly the
    resolver of the specification: a Management subject gets the requested
    folder when it is non-empty and its own id otherwise, and is never denied;
    a Regular subject under restriction is denied exactly when the requested
    folder is non-empty and differs from its id, and gets its id otherwise;
    a Regular subject without restriction gets the requested folder when it
    is non-empty and its id otherwise. *)
Theorem get_user_folder_resolve (cfg : config) (subject : string)
    (requested : option string) :
  resolution_of (get_user_folder cfg subject requested)
  = resolve subject (role_of cfg subject) requested (RESTRICTED cfg).
Proof.
  unfold get_user_folder, role_of, resolve.
  destruct (is_management cfg subject); [|destruct (RESTRICTED cfg)];
    destruct requested as [[|c s]|]; simpl; try reflexivity.
  case_decide as Heq; case_bool_decide as Hb; simpl; congruence.
Qed.

(** ** Authentication failures *)

Lemma jwt_decode_error_verify {lib : Library} cfg t tok err :
  jwt_decode t tok (JWT_KEY cfg) = inl err → verify_token cfg t tok = None.
Proof. unfold verify_token. intros ->. by destruct err. Qed.

Lemma handler_invalid_token {lib : Library} cfg e req w tok :
  form_token req = Some tok → has_required_field e req →
  verify_token cfg (now w) tok = None →
  serve (handler cfg e) req w = (invalid_token, w).
Proof.
  intros Htok Hreq Hver. unfold has_required_field in Hreq.
  destruct e; simpl in Hreq;
    lazymatch type of Hreq with
    | is_Some _ => destruct Hreq as [v Hv]
    | _ => clear Hreq
    end;
    unfold serve, handler, list_downloads, download_file_auto, download_file,
      upload_files, list_uploads, sync_upload, sync_delete, file_metadata,
      create_folder;
    rewrite Htok; try rewrite Hv; unfold bind, get_now; rewrite Hver;
    reflexivity.
Qed.





(** ** Running the storage primitives *)

Lemma is_file_bytes w s : is_file w s = bool_decide (is_Some (file_bytes w s)).
Proof.
  unfold is_file, file_bytes. destruct (node_at w s) as [[]|]; simpl; try done.
  all: case_bool_decide as Hs; [by destruct Hs | done].
Qed.

Lemma node_at_same w w' s :
  cwd w' = cwd w → fs w' = fs w → node_at w' s = node_at w s.
Proof. unfold node_at, locate. by intros -> ->. Qed.

Lemma exists_and_isfile_run s w :
  ∃ w', exists_and_isfile s w = (Return (is_file w s), w')
        ∧ cwd w' = cwd w ∧ fs w' = fs w ∧ now w' = now w ∧ oplog w' = oplog w.
Proof.
  unfold exists_and_isfile, bind, os_path_exists, os_path_isfile, with_world,
    is_file, node_at, locate, touch, ret, bind. simpl.
  destruct (Tree.lookup (fs w) (Path.resolve (cwd w) s)) as [[]|] eqn:E;
    simpl; rewrite ?E; eexists; (split; [reflexivity|done]).
Qed.

Lemma send_file_run s w c :
  file_bytes w s = Some c →
  ∃ w', send_file s w = (Return (send_file_response c), w').
Proof.
  unfold file_bytes, node_at, locate, send_file, read_bytes, with_world, bind,
    touch, ret. simpl.
  destruct (Tree.lookup (fs w) (Path.resolve (cwd w) s)) as [[]|]; try done.
  intros [= ->]. by eexists.
Qed.

(** ** Exact download *)

(** What [download_file] answers to an authenticated caller. *)
Lemma download_file_reply {lib : Library} cfg req w tok p u fo :
  form_token req = Some tok → form req !! "file" = Some p →
  verify_token cfg (now w) tok = Some (u, fo) →
  (serve (download_file cfg) req w).1 =
    if download_allowed p fo then
      match file_bytes w (Path.join (DATA_HOME cfg) p) with
      | Some c => send_file_response c
      | None => jsonify true "File not found." NoBody
      end
    else jsonify true "Access denied to requested file." NoBody.
Proof.
  intros Htok Hp Hver. unfold serve, download_file. rewrite Htok, Hp.
  unfold bind at 1, get_now. rewrite Hver.
  destruct (download_allowed p fo); simpl; [|reflexivity].
  unfold bind at 1.
  destruct (exists_and_isfile_run (Path.join (DATA_HOME cfg) p) w)
    as (w1 & -> & Hcwd & Hfs & _).
  rewrite is_file_bytes.
  destruct (file_bytes w (Path.join (DATA_HOME cfg) p)) as [c|] eqn:Hc; simpl.
  - unfold bind, log_sync_operation.
    edestruct (send_file_run (Path.join (DATA_HOME cfg) p)) as [w2 ->]; [|done].
    unfold file_bytes in *. by rewrite (node_at_same w) by done.
  - reflexivity.
Qed.



(** ** Download with fallback *)





(** ** Rejected sync targets *)

Lemma split_slash_head s h tl :
  Str.split_slash s = h :: tl → Str.startswith s h = true.
Proof.
  revert h tl. induction s as [|c s IH]; intros h tl; simpl.
  - by intros [= <- _].
  - case_decide as Hc.
    + by intros [= <- _].
    + destruct (Str.split_slash s) as [|h' tl'] eqn:Hs.
      * intros [= <- _]. simpl. by rewrite decide_True.
      * intros [= <- _]. simpl. rewrite decide_True by done. by eapply IH.
Qed.

(** A parent-directory segment shows as the substring the handlers look for. *)
Lemma parent_segment_contains s :
  has_parent_segment s → Str.contains ".." s = true.
Proof.
  unfold has_parent_segment. induction s as [|c s IH]; simpl.
  - intros Hin. apply list_elem_of_singleton in Hin. discriminate.
  - case_decide as Hc.
    + intros Hin. apply elem_of_cons in Hin as [Hin|Hin]; [discriminate|].
      rewrite IH by done. apply orb_true_r.
    + destruct (Str.split_slash s) as [|h tl] eqn:Hs.
      * intros Hin. apply list_elem_of_singleton in Hin. discriminate.
      * intros Hin. apply elem_of_cons in Hin as [Hin|Hin].
        -- injection Hin as <- <-. apply split_slash_head in Hs.
           destruct s as [|c' s']; [discriminate|]. simpl in Hs.
           case_decide; [subst c'|discriminate]. reflexivity.
        -- rewrite IH by (by right). apply orb_true_r.
Qed.

(** C5: for a Management caller, [sync_upload] rejects a target that has a
    parent-directory segment, is absolute, or starts with [uploads/] or
    [logs/], and [sync_delete] rejects a target that has a parent-directory
    segment, is absolute, or starts with neither [uploads/] nor [logs/]; a
    rejected request leaves the world as it was: no storage access is made,
    nothing is written, nothing is logged. *)
Theorem sync_rejects_untouched {lib : Library} (cfg : config) (req : request)
    (w : world) (tok : jwt) (t u : string) (fo : option string) :
  form_token req = Some tok →
  verify_token cfg (now w) tok = Some (u, fo) → is_management cfg u = true →
  (form req !! "target_path" = Some t →
   has_parent_segment t ∨ Str.startswith t "/" = true
   ∨ Str.startswith t "uploads/" = true ∨ Str.startswith t "logs/" = true →
   ∃ msg, serve (sync_upload cfg) req w = (jsonify true msg NoBody, w))
  ∧ (form req !! "file" = Some t →
     has_parent_segment t ∨ Str.startswith t "/" = true
     ∨ (Str.startswith t "uploads/" = false ∧ Str.startswith t "logs/" = false) →
     ∃ msg, serve (sync_delete cfg) req w = (jsonify true msg NoBody, w)).
Proof.
  intros Htok Hver Hm. split; intros Ht Hbad.
  - unfold serve, sync_upload. rewrite Htok, Ht.
    unfold bind at 1, get_now. rewrite Hver, Hm. cbn [negb].
    destruct (files_get (files req) "file") as [file|]; [|by eexists].
    destruct (Str.truthy (Some (filename file))); cbn [negb]; [|by eexists].
    destruct Hbad as [Hp|[Ha|[Hu|Hl]]].
    + rewrite (parent_segment_contains t Hp). by eexists.
    + rewrite Ha, orb_true_r. by eexists.
    + destruct (_ || _); [by eexists|]. rewrite Hu. by eexists.
    + destruct (_ || _); [by eexists|]. rewrite Hl, orb_true_r. by eexists.
  - unfold serve, sync_delete. rewrite Htok, Ht.
    unfold bind at 1, get_now. rewrite Hver, Hm. cbn [negb].
    destruct Hbad as [Hp|[Ha|[Hu Hl]]].
    + rewrite (parent_segment_contains t Hp). by eexists.
    + rewrite Ha, orb_true_r. by eexists.
    + destruct (_ || _); [by eexists|]. rewrite Hu, Hl. by eexists.
Qed.

Lemma sync_rejects_untouched_witness :
  ∃ msg, serve (sync_upload (lib := demo_library) shipped) sync_escape_request
           demo_world
         = (jsonify true msg NoBody, demo_world).
Proof.
  refine (proj1 (sync_rejects_untouched (lib := demo_library) shipped
            sync_escape_request demo_world
            (demo_token "sync_client" "sync_client" 1000)
            "downloads/../../evil.py" "sync_client" (Some "sync_client")
            _ _ _) _ _); try reflexivity.
  left. unfold has_parent_segment. vm_compute. set_solver.
Defined.

(** ** Issued tokens *)

Lemma os_makedirs_now s w r w' : os_makedirs s w = (r, w') → now w' = now w.
Proof.
  unfold os_makedirs, with_world, bind, touch, raise, set_fs. simpl.
  case_bool_decide; [by intros [= _ <-]|].
  destruct (Tree.mkdirs _ _); by intros [= _ <-].
Qed.

Lemma ensure_user_directories_now cfg F w r w' :
  ensure_user_directories cfg F w = (r, w') → now w' = now w.
Proof.
  unfold ensure_user_directories.
  destruct (negb _); [by intros [= _ <-]|].
  unfold bind.
  destruct (os_makedirs _ w) as [[[]|e] w1] eqn:H1.
  - intros H2%os_makedirs_now. apply os_makedirs_now in H1. congruence.
  - intros [= _ <-]. by eapply os_makedirs_now.
Qed.

(** A successful reply of [token] comes from good credentials and an allowed
    folder, and carries the token minted for them. *)
Lemma token_success_inv {lib : Library} cfg req w msg tok F w' :
  serve (token cfg) req w = (jsonify false msg (TokenBody tok F), w') →
  ∃ user password,
    form req !! "user" = Some user ∧ form req !! "password" = Some password
    ∧ jwt_users cfg !! user = Some password
    ∧ get_user_folder cfg user (form req !! "folder") = Some F
    ∧ tok = minted cfg user F (now w).
Proof.
  unfold serve, token.
  destruct (form req !! "user") as [user|]; [|by intros [=]].
  destruct (form req !! "password") as [password|]; [|by intros [=]].
  destruct (jwt_users cfg !! user) as [secret|] eqn:Hs; [|by intros [=]].
  case_bool_decide as Hpw; [|by intros [=]]. subst secret. cbn [negb].
  destruct (get_user_folder cfg user (form req !! "folder")) as [F0|] eqn:HF;
    [|by intros [=]].
  unfold bind at 1.
  destruct ((if Str.truthy (Some F0) then ensure_user_directories cfg F0 else ret ()) w)
    as [[[]|e] w1] eqn:He; [|by intros [=]].
  assert (now w1 = now w) as Hnow.
  { destruct (Str.truthy (Some F0)).
    - by eapply ensure_user_directories_now.
    - by injection He as <-. }
  unfold bind, get_now, log_sync_operation, ret. rewrite Hnow.
  intros [= _ <- <- _]. by exists user, password.
Qed.

(** A freshly minted token verifies until it expires. *)
Lemma minted_verifies {lib : Library} cfg user F t0 t :
  (t < t0 + TOKEN_DURATION cfg)%Z →
  verify_token cfg t (minted cfg user F t0) = Some (user, Some F).
Proof.
  intros Ht. unfold verify_token, minted, jwt_encode, jwt_decode. simpl.
  case_bool_decide; [simpl|done].
  destruct (Z.leb_spec (t0 + TOKEN_DURATION cfg) t); [lia|done].
Qed.

(** Whatever a minted token verifies to is what was signed. *)
Lemma minted_verify_inv {lib : Library} cfg user F t0 t u fo :
  verify_token cfg t (minted cfg user F t0) = Some (u, fo) →
  u = user ∧ fo = Some F.
Proof.
  unfold verify_token, minted, jwt_encode, jwt_decode. simpl.
  repeat (case_bool_decide; simpl; try done).
  destruct (_ <=? _)%Z; simpl; [done|]. by intros [= <- <-].
Qed.


(** C7: when [token] issues a token for a subject, its secret and a
    requested folder, [verify_token] at any time before the expiry accepts
    that token and returns the subject of the request and the folder that was
    assigned and signed. *)
Theorem issue_then_verify {lib : Library} (cfg : config) (req : request)
    (w w' : world) (msg : string) (tok : jwt) (F : string) (t : Z) :
  serve (token cfg) req w = (jsonify false msg (TokenBody tok F), w') →
  (t < now w + TOKEN_DURATION cfg)%Z →
  ∃ user password,
    form req !! "user" = Some user ∧ form req !! "password" = Some password
    ∧ jwt_users cfg !! user = Some password
    ∧ get_user_folder cfg user (form req !! "folder") = Some F
    ∧ tok = minted cfg user F (now w)
    ∧ verify_token cfg t tok = Some (user, Some F).
Proof.
  intros Hok Ht.
  destruct (token_success_inv cfg req w msg tok F w' Hok)
    as (user & password & Hu & Hp & Hs & HF & ->).
  exists user, password. repeat split; try done. by apply minted_verifies.
Qed.

Lemma issue_then_verify_witness :
  ∃ user password,
    form login_request !! "user" = Some user
    ∧ form login_request !! "password" = Some password
    ∧ jwt_users shipped !! user = Some password
    ∧ get_user_folder shipped user (form login_request !! "folder") = Some "U001"
    ∧ demo_token "U001" "U001" 1000 = minted (lib := demo_library) shipped user "U001" 1000
    ∧ verify_token (lib := demo_library) shipped 1299 (demo_token "U001" "U001" 1000)
      = Some (user, Some "U001").
Proof.
  apply (issue_then_verify (lib := demo_library) shipped login_request demo_world
           (serve (token (lib := demo_library) shipped) login_request demo_world).2
           "Token valid for 300 seconds." (demo_token "U001" "U001" 1000) "U001" 1299);
    reflexivity.
Defined.

(** The folder [upload_files] reports is [user_folder or user_id]. *)
Lemma upload_files_folder {lib : Library} cfg req w tok u fo e m l f w' :
  form_token req = Some tok → verify_token cfg (now w) tok = Some (u, fo) →
  serve (upload_files cfg) req w = (jsonify e m (UploadedBody l f), w') →
  f = Str.or_else fo u.
Proof.
  intros Htok Hver. unfold serve, upload_files. rewrite Htok.
  unfold bind at 1, get_now. rewrite Hver.
  case_bool_decide; [by intros [=]|].
  unfold bind at 1. destruct (os_makedirs _ w) as [[[]|?] w1]; [|by intros [=]].
  unfold bind at 1. destruct (fold_each _ _ _ w1) as [[?|?] w2]; [|by intros [=]].
  unfold bind, log_sync_operation, ret. by intros [= _ _ _ <- _].
Qed.

(** C10: provided no credential has the empty string as subject-id, a token
    that [token] issues carries a non-empty folder: the requested folder when
    one is requested, the subject-id otherwise.  Hence whenever
    [verify_token] accepts that token its folder is that non-empty string, and
    the upload folder [user_folder or user_id] is the token's folder, never
    the fallback. *)
Theorem issued_folder_non_empty {lib : Library} (cfg : config) (req : request)
    (w w' : world) (msg : string) (tok : jwt) (F : string) :
  jwt_users cfg !! "" = None →
  serve (token cfg) req w = (jsonify false msg (TokenBody tok F), w') →
  F ≠ ""
  ∧ (∃ user, form req !! "user" = Some user
       ∧ match Str.non_empty (form req !! "folder") with
         | Some requested => F = requested
         | None => F = user
         end)
  ∧ ∀ t user_id user_folder,
      verify_token cfg t tok = Some (user_id, user_folder) →
      user_folder = Some F ∧ Str.truthy user_folder = true
      ∧ Str.or_else user_folder user_id = F.
Proof.
  intros Hids Hok.
  destruct (token_success_inv cfg req w msg tok F w' Hok)
    as (user & password & Hu & Hp & Hs & HF & ->).
  assert (Huser : user ≠ "") by (intros ->; congruence).
  assert (HFreq : match Str.non_empty (form req !! "folder") with
                  | Some requested => F = requested
                  | None => F = user
                  end).
  { unfold get_user_folder in HF.
    destruct (is_management cfg user); [|destruct (RESTRICTED cfg)];
      destruct (form req !! "folder") as [[|c s]|]; simpl in *;
      try congruence.
    case_bool_decide; simpl in *; congruence. }
  assert (HFne : F ≠ "").
  { destruct (Str.non_empty (form req !! "folder")) as [f|] eqn:Hf; [|congruence].
    subst f. by destruct (form req !! "folder") as [[|c s]|]; simplify_eq/=. }
  repeat split; [done|by exists user|..];
    apply minted_verify_inv in H as [-> ->]; try done.
  - by destruct F.
  - by destruct F.
Qed.

Lemma issued_folder_non_empty_witness :
  "U001" ≠ ""
  ∧ (∃ user, form login_request !! "user" = Some user
       ∧ match Str.non_empty (form login_request !! "folder") with
         | Some requested => "U001" = requested
         | None => "U001" = user
         end)
  ∧ ∀ t user_id user_folder,
      verify_token (lib := demo_library) shipped t (demo_token "U001" "U001" 1000)
        = Some (user_id, user_folder) →
      user_folder = Some "U001" ∧ Str.truthy user_folder = true
      ∧ Str.or_else user_folder user_id = "U001".
Proof.
  apply (issued_folder_non_empty (lib := demo_library) shipped login_request demo_world
           (serve (token (lib := demo_library) shipped) login_request demo_world).2
           "Token valid for 300 seconds." (demo_token "U001" "U001" 1000) "U001");
    reflexivity.
Defined.

(** ** The metadata walk *)




Lemma os_path_exists_run s w :
  ∃ w', os_path_exists s w
          = (Return (match node_at w s with
                     | Some (File _ _) | Some (Dir _) => true
                     | _ => false
                     end), w')
        ∧ cwd w' = cwd w ∧ fs w' = fs w ∧ now w' = now w ∧ oplog w' = oplog w.
Proof.
  unfold os_path_exists, with_world, node_at, locate, bind, touch, ret. simpl.
  eexists. split_and!; [reflexivity|..]; done.
Qed.





(** ** Skipped files *)









(** The dangling link of the demo tree is listed by the walk, is logged as
    skipped, and the reply is a success whose map has the readable files. *)
Example stale_link_is_skipped :
  let out := serve (file_metadata (lib := demo_library) shipped) metadata_request
               demo_world in
  ("./dataroot/downloads", ["users"], ["catalog.csv"; "prices.csv"; "stale.lnk"])
    ∈ listing shipped (cwd demo_world) (fs demo_world)
  ∧ operation <$> oplog out.2 = ["METADATA_ERROR"; "METADATA_REQUEST"]
  ∧ ∃ metadata,
      out.1 = jsonify false "Metadata retrieved." (MetadataBody metadata)
      ∧ meta_hash <$> metadata !! "downloads/catalog.csv" = Some "14"
      ∧ meta_size <$> metadata !! "downloads/users/U001/catalog.csv" = Some 15%Z
      ∧ metadata !! "downloads/stale.lnk" = None.
Proof.
  split; [vm_compute; set_solver|].
  split; [vm_compute; reflexivity|].
  eexists. split; [vm_compute; reflexivity|].
  split_and!; vm_compute; reflexivity.
Qed.

(** ** Paths that leave the data root *)

(** C1 fails on [download_file]: the path [downloads/../../secret.key] has a
    parent-directory segment and starts with [downloads/], which is all the
    handler tests; it is not rejected, the handler probes and reads
    [/srv/app/secret.key], outside the data root [/srv/app/dataroot], and
    sends its bytes. *)
Theorem download_file_leaves_root :
  let out := serve (download_file (lib := demo_library) shipped) escape_request
               demo_world in
  has_parent_segment "downloads/../../secret.key"
  ∧ data_root shipped demo_world = ["srv"; "app"; "dataroot"]
  ∧ out.1 = send_file_response (bytes "k3y")
  ∧ accesses demo_world out.2
    = [Probe ["srv"; "app"; "secret.key"]; Probe ["srv"; "app"; "secret.key"];
       Read ["srv"; "app"; "secret.key"]]
  ∧ confined shipped demo_world out.2 = false.
Proof.
  split_and!; try (vm_compute; reflexivity).
  unfold has_parent_segment. vm_compute. set_solver.
Qed.

(** [upload_files] takes the file name as sent: a name with parent-directory
    segments is written outside the data root. *)
Example upload_files_leaves_root :
  let out := serve (upload_files (lib := demo_library) shipped) upload_escape_request
               demo_world in
  out.1 = jsonify false "Files uploaded successfully."
            (UploadedBody ["../../../evil.py"] "U001")
  ∧ Write ["srv"; "app"; "evil.py"] ∈ accesses demo_world out.2
  ∧ file_bytes out.2 "evil.py" = Some (bytes "x")
  ∧ confined shipped demo_world out.2 = false.
Proof.
  split_and!; try (vm_compute; reflexivity). vm_compute. set_solver.
Qed.

(** A requested folder is not checked either: [token] assigns [/srv/app] to a
    Regular subject that asks for it, and [os.path.join] then drops the data
    root in front of it, so that the caller's folder is [/srv/app] itself. *)
Example absolute_folder_leaves_root :
  (serve (token (lib := demo_library) shipped) absolute_folder_login demo_world).1
  = jsonify false "Token valid for 300 seconds."
      (TokenBody (demo_token "U001" "/srv/app" 1000) "/srv/app")
  ∧ Path.join_all (DATA_HOME shipped) ["downloads"; "users"; "/srv/app"; "secret.key"]
    = "/srv/app/secret.key"
  ∧ (serve (download_file_auto (lib := demo_library) shipped) absolute_folder_request
       demo_world).1
    = send_file_response (bytes "k3y").
Proof. split_and!; vm_compute; reflexivity. Qed.

(** *** Where the test is made, it works

    [sync_upload] and [sync_delete] refuse a target that contains [..] or
    starts with [/]; [download_file_auto] refuses a name that contains [..] or
    a separator.  A target that passes stays under the directory it is joined
    to. *)

Lemma split_slash_cons s : ∃ h tl, Str.split_slash s = h :: tl.
Proof.
  induction s as [|c s (h & tl & IH)]; simpl; [by eexists _, _|].
  case_decide; [by eexists _, _|]. rewrite IH. by eexists _, _.
Qed.

Lemma split_slash_app a b :
  Str.split_slash (a +:+ "/" +:+ b) = (Str.split_slash a ++ Str.split_slash b)%list.
Proof.
  induction a as [|c a IH]; simpl; [done|].
  case_decide; [by rewrite IH|].
  rewrite IH. by destruct (split_slash_cons a) as (h & tl & ->).
Qed.

Lemma string_app_assoc a b c : (a +:+ b) +:+ c = a +:+ b +:+ c.
Proof.
  induction a as [|x a IH]; [done|].
  change (String x ((a +:+ b) +:+ c) = String x (a +:+ b +:+ c)). by rewrite IH.
Qed.

Lemma startswith_app_slash a b :
  a ≠ "" → Str.startswith (a +:+ b) "/" = Str.startswith a "/".
Proof. by destruct a. Qed.

Lemma endswith_char_inv a c :
  Str.endswith_char a c = true → ∃ a', a = a' +:+ String c "".
Proof.
  induction a as [|x a IH]; simpl; [done|].
  destruct a as [|y a].
  - case_bool_decide; [|done]. subst x. by exists "".
  - intros [a' ->]%IH. by exists (String x a').
Qed.

Lemma foldl_step_extends p segs :
  ".." ∉ segs → ∃ ext, foldl Path.step p segs = (p ++ ext)%list.
Proof.
  revert p. induction segs as [|seg segs IH]; intros p Hno; simpl.
  - exists []. by rewrite app_nil_r.
  - apply not_elem_of_cons in Hno as [Hseg Hno].
    unfold Path.step at 2.
    destruct (bool_decide (seg = "") || bool_decide (seg = ".")); [by apply IH|].
    rewrite bool_decide_eq_false_2 by done.
    destruct (IH (p ++ [seg])%list Hno) as [ext ->].
    exists (seg :: ext). by rewrite <-app_assoc.
Qed.

Lemma under_app p ext : Path.under p (p ++ ext) = true.
Proof.
  induction p as [|x p IH]; simpl; [done|].
  by rewrite bool_decide_eq_true_2, IH.
Qed.

(** A relative target without [..] joined to a directory stays below it. *)
Lemma checked_target_confined cw base t :
  Str.contains ".." t = false → Str.startswith t "/" = false →
  Path.under (Path.resolve cw base) (Path.resolve cw (Path.join base t)) = true.
Proof.
  intros Hno Hrel.
  assert (Hsegs : ".." ∉ Str.split_slash t).
  { intros Hin. apply parent_segment_contains in Hin. congruence. }
  unfold Path.join. rewrite Hrel. unfold Path.resolve.
  case_bool_decide as Hbase; cbn [orb].
  - subst base. change ("" +:+ t) with t. rewrite Hrel.
    replace (foldl Path.step (if Str.startswith "" "/" then [] else cw)
               (Str.split_slash "")) with cw by reflexivity.
    destruct (foldl_step_extends cw _ Hsegs) as [ext ->]. apply under_app.
  - destruct (Str.endswith_char base "/") eqn:Hend.
    + apply endswith_char_inv in Hend as [b' ->].
      rewrite string_app_assoc.
      replace (b' +:+ "/") with (b' +:+ "/" +:+ "") by done.
      rewrite !split_slash_app, !foldl_app.
      assert (Hstart : Str.startswith (b' +:+ "/" +:+ t) "/"
                       = Str.startswith (b' +:+ "/" +:+ "") "/") by (by destruct b').
      rewrite Hstart.
      change (foldl Path.step ?p (Str.split_slash "")) with p.
      destruct (foldl_step_extends
                  (foldl Path.step
                     (if Str.startswith (b' +:+ "/" +:+ "") "/" then [] else cw)
                     (Str.split_slash b')) _ Hsegs) as [ext ->].
      apply under_app.
    + rewrite split_slash_app, foldl_app.
      rewrite (startswith_app_slash base) by done.
      destruct (foldl_step_extends
                  (foldl Path.step (if Str.startswith base "/" then [] else cw)
                     (Str.split_slash base)) _ Hsegs) as [ext ->].
      apply under_app.
Qed.

(** * Further properties of the handlers *)

(** ** Who may call what *)

(** X1: A request without a token is answered with an error by every operation
    that takes one, before anything else is looked at: the world is left as
    it was. *)
Theorem missing_token_untouched {lib : Library} (cfg : config) (e : endpoint)
    (req : request) (w : world) :
  form_token req = None →
  ∃ msg, serve (handler cfg e) req w = (jsonify true msg NoBody, w).
Proof.
  intros Htok.
  destruct e; unfold serve, handler, list_downloads, download_file_auto,
    download_file, upload_files, list_uploads, sync_upload, sync_delete,
    file_metadata, create_folder, missing_parameter;
    rewrite Htok; by eexists.
Qed.

Lemma missing_token_untouched_witness :
  ∃ msg, serve (handler (lib := demo_library) shipped Upload) login_request demo_world
         = (jsonify true msg NoBody, demo_world).
Proof.
  apply (missing_token_untouched (lib := demo_library) shipped Upload login_request
           demo_world).
  reflexivity.
Defined.

(** X2: The five privileged operations answer "Access denied." to a caller whose
    subject is not in [MANAGEMENT_USERS], whatever else the request holds,
    and leave the world as it was. *)
Theorem privileged_denied {lib : Library} (cfg : config) (e : endpoint)
    (req : request) (w : world) (tok : jwt) (u : string) (fo : option string) :
  privileged e = true →
  form_token req = Some tok → has_required_field e req →
  verify_token cfg (now w) tok = Some (u, fo) → is_management cfg u = false →
  serve (handler cfg e) req w = (jsonify true "Access denied." NoBody, w).
Proof.
  intros Hpriv Htok Hreq Hver Hm. unfold has_required_field in Hreq.
  destruct e; try discriminate Hpriv; simpl in Hreq;
    lazymatch type of Hreq with
    | is_Some _ => destruct Hreq as [v Hv]
    | _ => clear Hreq
    end;
    unfold serve, handler, list_uploads, sync_upload, sync_delete, file_metadata,
      create_folder;
    rewrite Htok; try rewrite Hv; unfold bind, get_now; rewrite Hver, Hm;
    reflexivity.
Qed.

Lemma privileged_denied_witness :
  serve (handler (lib := demo_library) shipped FileMetadata) regular_metadata_request
    demo_world
  = (jsonify true "Access denied." NoBody, demo_world).
Proof.
  apply (privileged_denied (lib := demo_library) shipped FileMetadata
           regular_metadata_request demo_world (demo_token "U002" "U002" 1000)
           "U002" (Some "U002")); reflexivity || exact I.
Defined.

(** ** What a token is worth *)


(** X4: A token stops being accepted when its time is up: from
    [TOKEN_DURATION] seconds after it was issued, every operation that takes
    a token answers "Invalid or expired token." and leaves the world as it
    was. *)
Theorem expired_token_refused {lib : Library} (cfg : config) (e : endpoint)
    (req : request) (w : world) (user F : string) (t0 : Z) :
  form_token req = Some (minted cfg user F t0) → has_required_field e req →
  (t0 + TOKEN_DURATION cfg ≤ now w)%Z →
  serve (handler cfg e) req w = (invalid_token, w).
Proof.
  intros Htok Hreq Hlate.
  apply (handler_invalid_token cfg e req w _ Htok Hreq).
  apply jwt_decode_error_verify with ExpiredSignatureError.
  unfold minted, jwt_encode, jwt_decode. simpl.
  case_bool_decide; [simpl|done].
  by destruct (Z.leb_spec (t0 + TOKEN_DURATION cfg) (now w)); [|lia].
Qed.

Lemma expired_token_refused_witness :
  serve (handler (lib := demo_library) shipped Download) expired_token_request
    demo_world
  = (invalid_token, demo_world).
Proof.
  apply (expired_token_refused (lib := demo_library) shipped Download
           expired_token_request demo_world "U001" "U001" 0); try reflexivity.
  - vm_compute. eauto.
  - vm_compute. discriminate.
Defined.

(** ** Restricted mode *)

(** X5: With [RESTRICTED] set, a token issued to a subject outside
    [MANAGEMENT_USERS] carries the subject's own id as its folder. *)
Theorem restricted_token_own_folder {lib : Library} (cfg : config) (req : request)
    (w w' : world) (msg : string) (tok : jwt) (F user : string) :
  RESTRICTED cfg = true →
  form req !! "user" = Some user → is_management cfg user = false →
  serve (token cfg) req w = (jsonify false msg (TokenBody tok F), w') →
  F = user ∧ ∀ t u fo, verify_token cfg t tok = Some (u, fo) → fo = Some user.
Proof.
  intros Hr Hu Hm Hok.
  destruct (token_success_inv cfg req w msg tok F w' Hok)
    as (user' & password & Hu' & _ & _ & HF & ->).
  assert (user' = user) as -> by congruence.
  unfold get_user_folder in HF. rewrite Hm, Hr in HF.
  assert (F = user) as -> by (destruct (_ && _); congruence).
  split; [done|]. intros t u fo Hv. by apply minted_verify_inv in Hv as [_ ->].
Qed.

Lemma restricted_token_own_folder_witness :
  "U001" = "U001"
  ∧ ∀ t u fo,
      verify_token (lib := demo_library) shipped_restricted t
        (demo_token "U001" "U001" 1000) = Some (u, fo) →
      fo = Some "U001".
Proof.
  apply (restricted_token_own_folder (lib := demo_library) shipped_restricted
           login_request demo_world
           (serve (token (lib := demo_library) shipped_restricted) login_request
              demo_world).2
           "Token valid for 300 seconds." (demo_token "U001" "U001" 1000)
           "U001" "U001"); reflexivity.
Defined.



(** ** Names that are not names *)

(** X7: [download_file_auto] takes a bare file name: one that contains [..], a
    slash or a backslash is refused, and the world is left as it was. *)
Theorem download_file_auto_refuses_paths {lib : Library} (cfg : config)
    (req : request) (w : world) (tok : jwt) (n u : string) (fo : option string) :
  form_token req = Some tok → form req !! "file" = Some n →
  verify_token cfg (now w) tok = Some (u, fo) →
  Str.contains ".." n = true ∨ Str.contains "/" n = true
  ∨ Str.contains "\" n = true →
  serve (download_file_auto cfg) req w
  = (jsonify true "Invalid filename. Use filename only, no paths." NoBody, w).
Proof.
  intros Htok Hn Hver Hbad. unfold serve, download_file_auto. rewrite Htok, Hn.
  unfold bind at 1, get_now. rewrite Hver.
  assert (Str.contains ".." n || Str.contains "/" n || Str.contains "\" n = true)
    as ->; [|done].
  destruct Hbad as [->|[->| ->]]; by rewrite ?orb_true_r.
Qed.

Lemma download_file_auto_refuses_paths_witness :
  serve (download_file_auto (lib := demo_library) shipped) path_as_name_request
    demo_world
  = (jsonify true "Invalid filename. Use filename only, no paths." NoBody, demo_world).
Proof.
  apply (download_file_auto_refuses_paths (lib := demo_library) shipped
           path_as_name_request demo_world (demo_token "U001" "U001" 1000)
           "users/U002/orders.csv" "U001" (Some "U001")); try reflexivity.
  right. left. reflexivity.
Defined.

(** ** The tree: what is put is found *)

Lemma get_set_child es k v : Tree.get_child (Tree.set_child es k v) k = Some v.
Proof.
  induction es as [|[k' c] es IH]; simpl.
  - by rewrite decide_True.
  - case_decide; simpl.
    + by rewrite decide_True.
    + by rewrite decide_False.
Qed.

Lemma get_set_child_ne es k k' v :
  k ≠ k' → Tree.get_child (Tree.set_child es k v) k' = Tree.get_child es k'.
Proof.
  intros Hne. induction es as [|[k0 c] es IH]; simpl.
  - by rewrite decide_False.
  - case_decide; simpl.
    + subst k0. by rewrite !decide_False.
    + by rewrite IH.
Qed.


Lemma store_lookup n p v n' :
  Tree.store n p v = Some n' → Tree.lookup n' p = Some v.
Proof.
  revert n n'. induction p as [|s rest IH]; intros n n'; simpl.
  - by intros [= ->].
  - destruct n as [| |es]; try done.
    destruct rest as [|s' rest'].
    + intros [= <-]. simpl. by rewrite get_set_child.
    + destruct (Tree.get_child es s) as [c|]; [|done].
      destruct (Tree.store c (s' :: rest') v) as [c'|] eqn:Hc; [|done].
      intros [= <-]. cbn [Tree.lookup]. rewrite get_set_child. by eapply IH.
Qed.

Lemma mkdirs_is_dir n p n' :
  Tree.mkdirs n p = Some n' → ∃ es, Tree.lookup n' p = Some (Dir es).
Proof.
  revert n n'. induction p as [|s rest IH]; intros n n'.
  - destruct n as [| |es]; simpl; try done. intros [= <-]. by eexists.
  - destruct n as [| |es]; simpl; try done.
    destruct (Tree.mkdirs _ rest) as [c'|] eqn:Hc; [|done].
    intros [= <-]. simpl. rewrite get_set_child. by eapply IH.
Qed.

(** [makedirs] changes no file and removes no directory. *)
Lemma mkdirs_keeps n p n' q :
  Tree.mkdirs n p = Some n' →
  match Tree.lookup n q with
  | Some (File c mt) => Tree.lookup n' q = Some (File c mt)
  | Some Dangling => Tree.lookup n' q = Some Dangling
  | Some (Dir _) => ∃ es, Tree.lookup n' q = Some (Dir es)
  | None => True
  end.
Proof.
  revert n n' q. induction p as [|s rest IH]; intros n n' q.
  - destruct n as [| |es]; simpl; try done. intros [= <-].
    destruct (Tree.lookup (Dir es) q) as [[]|]; eauto.
  - destruct n as [| |es]; simpl; try done.
    destruct (Tree.mkdirs _ rest) as [c'|] eqn:Hc; [|done].
    intros [= <-]. destruct q as [|s' q']; simpl; [by eexists|].
    destruct (decide (s = s')) as [<-|Hne].
    + rewrite get_set_child.
      destruct (Tree.get_child es s) as [c|]; [|done].
      by apply (IH c c' q').
    + rewrite get_set_child_ne by done.
      destruct (Tree.get_child es s') as [c|]; [|done].
      destruct (Tree.lookup c q') as [[]|]; eauto.
Qed.


Lemma save_run data s w w' :
  save data s w = (Return (), w') →
  file_bytes w' s = Some data ∧ cwd w' = cwd w ∧ now w' = now w
  ∧ oplog w' = oplog w.
Proof.
  unfold save, with_world, locate, bind, touch, raise, set_fs, file_bytes,
    node_at, locate. simpl.
  assert (Hstore : ∀ t, Tree.store (fs w) (Path.resolve (cwd w) s) (File data (now w))
                        = Some t →
                        Tree.lookup t (Path.resolve (cwd w) s)
                        = Some (File data (now w))) by (intros t; apply store_lookup).
  destruct (Tree.lookup (fs w) (Path.resolve (cwd w) s)) as [[]|];
    try (by intros [=]);
    (destruct (Tree.lookup (fs w) (removelast (Path.resolve (cwd w) s))) as [[]|];
       try (by intros [=]));
    (destruct (Tree.store _ _ _) as [t|]; [|by intros [=]]);
    intros [= <-]; simpl; by rewrite (Hstore t).
Qed.

Lemma os_makedirs_run s w w' :
  os_makedirs s w = (Return (), w') →
  dir_at w' s = true ∧ cwd w' = cwd w ∧ now w' = now w ∧ oplog w' = oplog w
  ∧ Tree.mkdirs (fs w) (Path.resolve (cwd w) s) = Some (fs w').
Proof.
  unfold os_makedirs, with_world, bind, touch, raise, set_fs, dir_at, node_at,
    locate. simpl.
  case_bool_decide; [by intros [=]|].
  destruct (Tree.mkdirs _ _) as [t|] eqn:Ht; [|by intros [=]].
  intros [= <-]. simpl.
  destruct (mkdirs_is_dir _ _ _ Ht) as [es ->]. done.
Qed.

(** ** Placing a file *)

(** A successful [sync_upload] comes from a Management caller and a target
    that passed the tests, and leaves the bytes sent at the target. *)
Lemma sync_upload_success_inv {lib : Library} cfg req w msg b w' :
  serve (sync_upload cfg) req w = (jsonify false msg b, w') →
  ∃ tok t u fo file,
    form_token req = Some tok ∧ form req !! "target_path" = Some t
    ∧ verify_token cfg (now w) tok = Some (u, fo) ∧ is_management cfg u = true
    ∧ files_get (files req) "file" = Some file
    ∧ Str.contains ".." t = false ∧ Str.startswith t "/" = false
    ∧ Str.startswith t "uploads/" = false ∧ Str.startswith t "logs/" = false
    ∧ b = PathBody t
    ∧ file_bytes w' (Path.join (DATA_HOME cfg) t) = Some (stream file)
    ∧ cwd w' = cwd w ∧ now w' = now w.
Proof.
  unfold serve, sync_upload.
  destruct (form_token req) as [tok|]; [|by intros [=]].
  destruct (form req !! "target_path") as [t|]; [|by intros [=]].
  unfold bind at 1, get_now.
  destruct (verify_token cfg (now w) tok) as [[u fo]|] eqn:Hver; [|by intros [=]].
  destruct (is_management cfg u) eqn:Hm; cbn [negb]; [|by intros [=]].
  destruct (files_get (files req) "file") as [file|]; [|by intros [=]].
  destruct (Str.truthy (Some (filename file))); cbn [negb]; [|by intros [=]].
  destruct (Str.contains ".." t) eqn:H1; cbn [orb]; [by intros [=]|].
  destruct (Str.startswith t "/") eqn:H2; [by intros [=]|].
  destruct (Str.startswith t "uploads/") eqn:H3; cbn [orb]; [by intros [=]|].
  destruct (Str.startswith t "logs/") eqn:H4; [by intros [=]|].
  unfold bind at 1.
  destruct (os_makedirs _ w) as [[[]|e] w1] eqn:Hmk; [|by intros [=]].
  unfold bind at 1.
  destruct (save _ _ w1) as [[[]|e] w2] eqn:Hsave; [|by intros [=]].
  unfold bind, log_sync_operation, ret. intros [= _ <- <-].
  apply os_makedirs_run in Hmk as (_ & Hc1 & Hn1 & _).
  apply save_run in Hsave as (Hbytes & Hc2 & Hn2 & _).
  exists tok, t, u, fo, file. split_and!; try done; simpl; try congruence.
Qed.



(** X9: What the sync client places under [downloads/] is what a caller that may
    read the path then downloads: after a successful [sync_upload] to a
    target, [download_file] of that target, by any caller with a valid token
    for which the path is allowed, sends the bytes that were placed. *)
Theorem sync_upload_then_download {lib : Library} (cfg : config)
    (req req2 : request) (w w' : world) (msg : string) (b : body) (t : string)
    (file : file_storage) (tok2 : jwt) (u2 : string) (fo2 : option string) :
  serve (sync_upload cfg) req w = (jsonify false msg b, w') →
  form req !! "target_path" = Some t →
  files_get (files req) "file" = Some file →
  form_token req2 = Some tok2 → form req2 !! "file" = Some t →
  verify_token cfg (now w') tok2 = Some (u2, fo2) →
  download_allowed t fo2 = true →
  (serve (download_file cfg) req2 w').1 = send_file_response (stream file).
Proof.
  intros Hok Ht Hfile Htok2 Ht2 Hver2 Hallowed.
  destruct (sync_upload_success_inv cfg req w msg b w' Hok)
    as (tok & t' & u & fo & file' & _ & Ht' & _ & _ & Hfile' & _ & _ & _ & _
        & _ & Hbytes & _).
  simplify_eq.
  rewrite (download_file_reply cfg req2 w' tok2 t u2 fo2) by done.
  by rewrite Hallowed, Hbytes.
Qed.

Lemma sync_upload_then_download_witness :
  let w' := (serve (sync_upload (lib := demo_library) shipped) place_prices_request
               demo_world).2 in
  (serve (download_file (lib := demo_library) shipped) fetch_prices_request w').1
  = send_file_response (bytes "new prices").
Proof.
  intros w'.
  apply (sync_upload_then_download (lib := demo_library) shipped
           place_prices_request fetch_prices_request demo_world w'
           "File synced successfully." (PathBody "downloads/2026/prices.csv")
           "downloads/2026/prices.csv"
           {| filename := "prices.csv"; stream := bytes "new prices" |}
           (demo_token "U002" "U002" 1000) "U002" (Some "U002"));
    vm_compute; reflexivity.
Defined.

(** ** Removing a file *)





Lemma os_path_isfile_run s w :
  ∃ w', os_path_isfile s w = (Return (is_file w s), w')
        ∧ cwd w' = cwd w ∧ fs w' = fs w ∧ now w' = now w ∧ oplog w' = oplog w.
Proof.
  unfold os_path_isfile, with_world, is_file, node_at, locate, bind, touch, ret.
  simpl. eexists. split_and!; [reflexivity|..]; done.
Qed.





(** ** Directories *)

Lemma grows_same w w' :
  cwd w' = cwd w → now w' = now w → fs w' = fs w → grows w w'.
Proof.
  intros Hc Hn Hf. unfold grows, dir_at, is_file, node_at, locate. simpl.
  rewrite Hc, Hf. done.
Qed.

Lemma grows_trans w1 w2 w3 : grows w1 w2 → grows w2 w3 → grows w1 w3.
Proof.
  intros (Hc1 & Hn1 & Hd1 & Hf1) (Hc2 & Hn2 & Hd2 & Hf2).
  split_and!; [congruence|congruence|by auto|].
  intros q Hq. rewrite <-(Hf1 q Hq). apply Hf2.
  unfold is_file in *. by rewrite (Hf1 q Hq).
Qed.

Lemma os_makedirs_grows s w w' : os_makedirs s w = (Return (), w') → grows w w'.
Proof.
  intros (_ & Hc & Hn & _ & Hmk)%os_makedirs_run.
  split_and!; [done..| |]; intros q;
    unfold dir_at, is_file, node_at, locate; simpl; rewrite Hc;
    pose proof (mkdirs_keeps _ _ _ (Path.resolve (cwd w) q) Hmk) as Hk;
    destruct (Tree.lookup (fs w) (Path.resolve (cwd w) q)) as [[| |es]|];
    try done.
  by destruct Hk as [es' ->].
Qed.



(** What [ensure_user_directories] leaves for a folder with a name. *)
Lemma ensure_user_directories_run cfg F w w' :
  F ≠ "" → ensure_user_directories cfg F w = (Return (), w') →
  dir_at w' (Path.join_all (DATA_HOME cfg) ["downloads"; "users"; F]) = true
  ∧ dir_at w' (Path.join_all (DATA_HOME cfg) ["uploads"; F]) = true
  ∧ grows w w'.
Proof.
  intros HF. unfold ensure_user_directories.
  destruct F as [|c F']; [done|]. cbn [Str.truthy negb]. unfold bind.
  destruct (os_makedirs _ w) as [[[]|e] w1] eqn:H1; [|by intros [=]].
  intros H2.
  pose proof (os_makedirs_grows _ _ _ H1) as G1.
  pose proof (os_makedirs_grows _ _ _ H2) as G2.
  apply os_makedirs_run in H1 as (D1 & _). apply os_makedirs_run in H2 as (D2 & _).
  split_and!; [|done|by eapply grows_trans].
  by apply G2.
Qed.

Lemma ensure_user_directories_grows cfg F w w' :
  ensure_user_directories cfg F w = (Return (), w') → grows w w'.
Proof.
  destruct (decide (F = "")) as [->|HF].
  - intros [= <-]. by apply grows_same.
  - intros H. by apply (ensure_user_directories_run cfg F w w' HF H).
Qed.


(** A loop whose body only adds directories only adds directories, and what
    the body sets up for an item is there at the end. *)
Lemma fold_each_grows {A} (l : list A) (body : unit → A → M unit)
    (Q : A → world → Prop) w w' :
  (∀ x w0 w1, body tt x w0 = (Return (), w1) → grows w0 w1 ∧ Q x w1) →
  (∀ x w0 w1, Q x w0 → grows w0 w1 → Q x w1) →
  fold_each l tt body w = (Return (), w') →
  grows w w' ∧ ∀ x, x ∈ l → Q x w'.
Proof.
  intros Hbody Hkeep. revert w. induction l as [|x l IH]; intros w; simpl.
  - intros [= <-]. split; [by apply grows_same|]. by intros x Hx%elem_of_nil.
  - unfold bind. destruct (body tt x w) as [[[]|e] w1] eqn:Hx; [|by intros [=]].
    intros Hrest. destruct (Hbody _ _ _ Hx) as [G1 Q1].
    destruct (IH _ Hrest) as [G2 Q2].
    split; [by eapply grows_trans|].
    intros y [->|Hy]%elem_of_cons; [by eapply Hkeep|by apply Q2].
Qed.






(** X13: When [setup_directories] returns, the four directories of the data root
    exist, so do the download and upload directories of every login of the
    list that is not a Management one, and no regular file was changed or
    removed. *)
Theorem setup_directories_prepares (cfg : config) (keys : list string)
    (w w' : world) :
  setup_directories cfg keys w = (Return (), w') →
  (∀ d, d ∈ ["downloads"; "uploads"; "downloads/users"; "logs"] →
        dir_at w' (Path.join (DATA_HOME cfg) d) = true)
  ∧ (∀ u, u ∈ keys → is_management cfg u = false → u ≠ "" →
          dir_at w' (Path.join_all (DATA_HOME cfg) ["downloads"; "users"; u]) = true
          ∧ dir_at w' (Path.join_all (DATA_HOME cfg) ["uploads"; u]) = true)
  ∧ ∀ q, is_file w q = true → node_at w' q = node_at w q.
Proof.
  unfold setup_directories, bind.
  destruct (fold_each _ () _ w) as [[[]|e] w1] eqn:H1; [|by intros [=]].
  intros H2.
  apply (fold_each_grows _ _
           (λ d w0, dir_at w0 (Path.join (DATA_HOME cfg) d) = true)) in H1
    as [G1 Q1].
  2:{ intros d w0 w2 Hd. split; [by eapply os_makedirs_grows|].
      by apply os_makedirs_run in Hd as (? & _). }
  2:{ intros d w0 w2 Hd (_ & _ & Hk & _). by apply Hk. }
  apply (fold_each_grows _ _
           (λ u w0, is_management cfg u = false → u ≠ "" →
              dir_at w0 (Path.join_all (DATA_HOME cfg) ["downloads"; "users"; u]) = true
              ∧ dir_at w0 (Path.join_all (DATA_HOME cfg) ["uploads"; u]) = true)) in H2
    as [G2 Q2].
  2:{ intros u w0 w2. destruct (is_management cfg u); cbn [negb].
      - intros [= <-]. split; [by apply grows_same|done].
      - intros Hu. split; [by eapply ensure_user_directories_grows|].
        intros _ Hne. by destruct (ensure_user_directories_run cfg u w0 w2 Hne Hu)
          as (? & ? & _). }
  2:{ intros u w0 w2 HQ (_ & _ & Hk & _) Hm Hne.
      destruct (HQ Hm Hne). split; by apply Hk. }
  split_and!.
  - intros d Hd. destruct G2 as (_ & _ & Hk & _). apply Hk. by apply Q1.
  - done.
  - by destruct (grows_trans _ _ _ G1 G2) as (_ & _ & _ & ?).
Qed.

Lemma setup_directories_prepares_witness :
  let w' := (setup_directories shipped shipped_keys bare_world).2 in
  (∀ d, d ∈ ["downloads"; "uploads"; "downloads/users"; "logs"] →
        dir_at w' (Path.join (DATA_HOME shipped) d) = true)
  ∧ (∀ u, u ∈ shipped_keys → is_management shipped u = false → u ≠ "" →
          dir_at w' (Path.join_all (DATA_HOME shipped) ["downloads"; "users"; u]) = true
          ∧ dir_at w' (Path.join_all (DATA_HOME shipped) ["uploads"; u]) = true)
  ∧ ∀ q, is_file bare_world q = true → node_at w' q = node_at bare_world q.
Proof.
  intros w'.
  apply (setup_directories_prepares shipped shipped_keys bare_world w').
  vm_compute. reflexivity.
Defined.




(** ** What a run preserves *)

Section Preserved.
Context (R : world → world → Prop).
Hypothesis R_refl : ∀ w, R w w.
Hypothesis R_trans : ∀ w1 w2 w3, R w1 w2 → R w2 w3 → R w1 w3.
Hypothesis R_oplog : ∀ w l, R w (with_oplog w l).

Lemma preserves_ret {A} (a : A) : preserves R (ret a).
Proof. intros w r w' [= _ <-]. apply R_refl. Qed.

Lemma preserves_raise {A} (e : exn) : preserves R (raise (A := A) e).
Proof. intros w r w' [= _ <-]. apply R_refl. Qed.

Lemma preserves_get_now : preserves R get_now.
Proof. intros w r w' [= _ <-]. apply R_refl. Qed.

Lemma preserves_log u o d : preserves R (log_sync_operation u o d).
Proof. intros w r w' [= _ <-]. apply R_oplog. Qed.

Lemma preserves_bind {A B} (m : M A) (k : A → M B) :
  preserves R m → (∀ a, preserves R (k a)) → preserves R (bind m k).
Proof.
  intros Hm Hk w r w'. unfold bind.
  destruct (m w) as [[a|e] w1] eqn:H1.
  - intros H2. eapply R_trans; [by eapply Hm|by eapply Hk].
  - intros [= _ <-]. by eapply Hm.
Qed.

Lemma preserves_try_except {A} (m : M A) (h : exn → M A) :
  preserves R m → (∀ e, preserves R (h e)) → preserves R (try_except m h).
Proof.
  intros Hm Hh w r w'. unfold try_except.
  destruct (m w) as [[a|e] w1] eqn:H1.
  - intros [= _ <-]. by eapply Hm.
  - intros H2. eapply R_trans; [by eapply Hm|by eapply Hh].
Qed.

Lemma preserves_with_world {A} (f : world → M A) :
  (∀ w0, preserves R (f w0)) → preserves R (with_world f).
Proof. intros Hf w r w'. unfold with_world. apply Hf. Qed.

Lemma preserves_fold_each {A S} (l : list A) (acc : S) (body : S → A → M S) :
  (∀ acc x, preserves R (body acc x)) → preserves R (fold_each l acc body).
Proof.
  intros Hbody. revert acc. induction l as [|x l IH]; intros acc; simpl.
  - apply preserves_ret.
  - apply preserves_bind; [apply Hbody|]. intros acc'. apply IH.
Qed.

End Preserved.

(** One step of a proof that a handler preserves a relation: [Hrefl],
    [Htrans] and [Hlog] are its three laws, the primitives are taken from the
    hint database. *)
Create HintDb preserved discriminated.

Ltac preserved_step Hrefl Htrans Hlog :=
  cbv beta zeta;
  lazymatch goal with
  | |- preserves _ (bind _ _) => apply (preserves_bind _ Htrans); [|intros ?]
  | |- preserves _ (ret _) => apply (preserves_ret _ Hrefl)
  | |- preserves _ (raise _) => apply (preserves_raise _ Hrefl)
  | |- preserves _ get_now => apply (preserves_get_now _ Hrefl)
  | |- preserves _ (log_sync_operation _ _ _) => apply (preserves_log _ Hlog)
  | |- preserves _ (try_except _ _) =>
      apply (preserves_try_except _ Htrans); [|intros ?]
  | |- preserves _ (with_world _) => apply preserves_with_world; intros ?
  | |- preserves _ (fold_each _ _ _) =>
      apply (preserves_fold_each _ Hrefl Htrans); intros ? ?
  | |- preserves _ (match ?x with _ => _ end) => destruct x eqn:?
  | |- preserves _ _ => solve [eauto with preserved]
  end.

(** *** Handlers that only read *)

Lemma same_tree_refl w : same_tree w w.
Proof. done. Qed.

Lemma same_tree_trans w1 w2 w3 : same_tree w1 w2 → same_tree w2 w3 → same_tree w1 w3.
Proof. unfold same_tree. congruence. Qed.

Lemma same_tree_oplog w l : same_tree w (with_oplog w l).
Proof. done. Qed.

Ltac probe_same_tree :=
  intros w r w';
  cbv beta iota zeta delta [os_path_exists os_path_isfile os_path_isdir os_stat
    read_bytes os_walk os_listdir with_world locate bind touch ret raise];
  repeat (lazymatch goal with
          | |- context [match Tree.lookup ?t ?p with _ => _ end] =>
              destruct (Tree.lookup t p) as [[]|]
          end);
  by intros [= _ <-].

Lemma os_path_exists_same_tree s : preserves same_tree (os_path_exists s).
Proof. probe_same_tree. Qed.

Lemma os_path_isfile_same_tree s : preserves same_tree (os_path_isfile s).
Proof. probe_same_tree. Qed.

Lemma os_path_isdir_same_tree s : preserves same_tree (os_path_isdir s).
Proof. probe_same_tree. Qed.

Lemma os_stat_same_tree s : preserves same_tree (os_stat s).
Proof. probe_same_tree. Qed.

Lemma read_bytes_same_tree s : preserves same_tree (read_bytes s).
Proof. probe_same_tree. Qed.

Lemma os_walk_same_tree s : preserves same_tree (os_walk s).
Proof. probe_same_tree. Qed.

Lemma os_listdir_same_tree s : preserves same_tree (os_listdir s).
Proof. probe_same_tree. Qed.

#[local] Hint Resolve os_path_exists_same_tree os_path_isfile_same_tree
  os_path_isdir_same_tree os_stat_same_tree read_bytes_same_tree os_walk_same_tree
  os_listdir_same_tree : preserved.

Ltac reads := repeat preserved_step same_tree_refl same_tree_trans same_tree_oplog.

Lemma exists_and_isfile_same_tree s : preserves same_tree (exists_and_isfile s).
Proof. unfold exists_and_isfile. reads. Qed.

Lemma send_file_same_tree s : preserves same_tree (send_file s).
Proof. unfold send_file. reads. Qed.

#[local] Hint Resolve exists_and_isfile_same_tree send_file_same_tree : preserved.

Lemma list_downloads_same_tree {lib : Library} cfg req :
  preserves same_tree (list_downloads cfg req).
Proof. unfold list_downloads. reads. Qed.

Lemma download_file_auto_same_tree {lib : Library} cfg req :
  preserves same_tree (download_file_auto cfg req).
Proof. unfold download_file_auto. reads. Qed.

Lemma download_file_same_tree {lib : Library} cfg req :
  preserves same_tree (download_file cfg req).
Proof. unfold download_file. reads. Qed.

Lemma list_uploads_same_tree {lib : Library} cfg req :
  preserves same_tree (list_uploads cfg req).
Proof. unfold list_uploads. reads. Qed.

Lemma file_metadata_same_tree {lib : Library} cfg req :
  preserves same_tree (file_metadata cfg req).
Proof. unfold file_metadata, metadata_entry. reads. Qed.

(** X15: The handlers that list or send files ([list_downloads],
    [download_file_auto], [download_file], [list_uploads], [file_metadata])
    leave every file and directory of the tree as it was, whatever the
    request and whatever they answer; the operation log, which the model
    keeps apart from the tree, is all they write. *)
Theorem reading_changes_nothing {lib : Library} (cfg : config) (e : endpoint)
    (req : request) (w : world) :
  reading e = true → fs (serve (handler cfg e) req w).2 = fs w.
Proof.
  intros He. unfold serve.
  destruct (handler cfg e req w) as [[r|x] w'] eqn:Hrun; simpl;
    (destruct e; try discriminate He; simpl in Hrun;
     [ by apply list_downloads_same_tree in Hrun
     | by apply download_file_auto_same_tree in Hrun
     | by apply download_file_same_tree in Hrun
     | by apply list_uploads_same_tree in Hrun
     | by apply file_metadata_same_tree in Hrun ]).
Qed.

Lemma reading_changes_nothing_witness :
  fs (serve (handler (lib := demo_library) shipped FileMetadata) metadata_request
        demo_world).2
  = fs demo_world.
Proof.
  apply (reading_changes_nothing (lib := demo_library) shipped FileMetadata
           metadata_request demo_world).
  reflexivity.
Defined.


(** *** Handlers that stay under the data root *)

Lemma inside_refl cfg w : inside cfg w w.
Proof. split; [done|]. exists []. by rewrite app_nil_r. Qed.

Lemma inside_trans cfg w1 w2 w3 :
  inside cfg w1 w2 → inside cfg w2 w3 → inside cfg w1 w3.
Proof.
  intros (Hc1 & l1 & Hl1 & Hu1) (Hc2 & l2 & Hl2 & Hu2).
  split; [congruence|]. exists (l1 ++ l2)%list. split.
  - by rewrite Hl2, Hl1, <-app_assoc.
  - rewrite forallb_app, Hu1. unfold data_root in *. by rewrite <-Hc1.
Qed.

Lemma inside_oplog cfg w l : inside cfg w (with_oplog w l).
Proof. split; [done|]. exists []. simpl. by rewrite app_nil_r. Qed.

Lemma inside_confined cfg w w' : inside cfg w w' → confined cfg w w' = true.
Proof.
  intros (_ & l & Hl & Hu). unfold confined, accesses.
  by rewrite Hl, drop_app_length.
Qed.

Lemma serve_world (h : request → M response) req w :
  (serve h req w).2 = (h req w).2.
Proof. unfold serve. by destruct (h req w) as [[r|e] w']. Qed.

Lemma run_confined {A} cfg (m : M A) w :
  preserves (inside cfg) m → confined cfg w (m w).2 = true.
Proof.
  intros Hm. destruct (m w) as [r w'] eqn:Hrun. apply inside_confined.
  by eapply Hm.
Qed.

Lemma under_trans a b c :
  Path.under a b = true → Path.under b c = true → Path.under a c = true.
Proof.
  revert b c. induction a as [|r a IH]; intros b c; simpl; [done|].
  destruct b as [|x b]; [done|]. intros [Hr Hab]%andb_true_iff.
  simpl. destruct c as [|y c]; [done|]. intros [Hx Hbc]%andb_true_iff.
  apply bool_decide_eq_true in Hr. apply bool_decide_eq_true in Hx. subst.
  rewrite bool_decide_eq_true_2 by done. simpl. by eapply IH.
Qed.

Lemma safe_root cfg : safe cfg (DATA_HOME cfg).
Proof.
  intros cw. pose proof (under_app (Path.resolve cw (DATA_HOME cfg)) []) as H.
  by rewrite app_nil_r in H.
Qed.

(** Joining a relative name without [..] to a safe directory is safe. *)
Lemma safe_join cfg base t :
  safe cfg base → Str.contains ".." t = false → Str.startswith t "/" = false →
  safe cfg (Path.join base t).
Proof.
  intros Hb H1 H2 cw. eapply under_trans; [apply Hb|].
  by apply checked_target_confined.
Qed.

Lemma checked_safe cfg t :
  Str.contains ".." t || Str.startswith t "/" = false →
  safe cfg (Path.join (DATA_HOME cfg) t).
Proof. intros [H1 H2]%orb_false_elim. apply safe_join; [apply safe_root|done..]. Qed.

Lemma contains_slash_startswith s :
  Str.contains "/" s = false → Str.startswith s "/" = false.
Proof.
  destruct s as [|c s]; [done|]. cbn [Str.contains].
  by intros [H _]%orb_false_elim.
Qed.

Lemma downloads_relative p :
  Str.startswith p "downloads/" = true → Str.startswith p "/" = false.
Proof.
  destruct p as [|c p]; [done|]. cbn [Str.startswith].
  repeat case_decide; simplify_eq; done.
Qed.

Lemma allowed_safe cfg p fo :
  Str.contains ".." p = false → negb (download_allowed p fo) = false →
  safe cfg (Path.join (DATA_HOME cfg) p).
Proof.
  intros Hp [Hd _]%negb_false_iff%andb_true_iff.
  apply safe_join; [apply safe_root|done|]. by apply downloads_relative.
Qed.

Ltac probe_inside :=
  intros Hs w r w';
  cbv beta iota zeta delta [os_path_exists os_path_isfile read_bytes os_remove
    os_makedirs save with_world locate bind touch ret raise set_fs];
  repeat case_match;
  intros [= _ <-]; (split; [done|]); eexists [_]; (split; [simpl; reflexivity|]);
  cbn [forallb target]; unfold data_root; by rewrite (Hs (cwd w)).

Lemma os_path_exists_inside cfg s :
  safe cfg s → preserves (inside cfg) (os_path_exists s).
Proof. probe_inside. Qed.

Lemma os_path_isfile_inside cfg s :
  safe cfg s → preserves (inside cfg) (os_path_isfile s).
Proof. probe_inside. Qed.

Lemma read_bytes_inside cfg s :
  safe cfg s → preserves (inside cfg) (read_bytes s).
Proof. probe_inside. Qed.

Lemma os_remove_inside cfg s :
  safe cfg s → preserves (inside cfg) (os_remove s).
Proof. probe_inside. Qed.

Lemma os_makedirs_inside cfg s :
  safe cfg s → preserves (inside cfg) (os_makedirs s).
Proof. probe_inside. Qed.

Lemma save_inside cfg data s :
  safe cfg s → preserves (inside cfg) (save data s).
Proof. probe_inside. Qed.

(** A join of the data root with names that are given or at hand. *)
Ltac solve_safe :=
  cbn [Path.join_all foldl];
  repeat (apply safe_join; [|first [assumption | vm_compute; reflexivity]..]);
  apply safe_root.

#[local] Hint Resolve os_path_exists_inside os_path_isfile_inside read_bytes_inside
  os_remove_inside os_makedirs_inside save_inside checked_safe allowed_safe : preserved.
#[local] Hint Extern 2 (safe _ _) => solve_safe : preserved.

Ltac stays cfg :=
  repeat preserved_step (inside_refl cfg) (inside_trans cfg) (inside_oplog cfg).

Lemma exists_and_isfile_inside cfg s :
  safe cfg s → preserves (inside cfg) (exists_and_isfile s).
Proof. intros Hs. unfold exists_and_isfile. stays cfg. Qed.

Lemma send_file_inside {lib : Library} cfg s :
  safe cfg s → preserves (inside cfg) (send_file s).
Proof. intros Hs. unfold send_file. stays cfg. Qed.

#[local] Hint Resolve exists_and_isfile_inside send_file_inside : preserved.

Lemma sync_delete_inside {lib : Library} cfg req :
  preserves (inside cfg) (sync_delete cfg req).
Proof. unfold sync_delete. stays cfg. Qed.


(** X16: Whatever the request, [sync_delete] reaches no location outside the data
    root: every storage access it makes lies under [DATA_HOME]. *)
Theorem sync_delete_confined {lib : Library} (cfg : config) (req : request)
    (w : world) :
  confined cfg w (serve (sync_delete cfg) req w).2 = true.
Proof. rewrite serve_world. apply run_confined, sync_delete_inside. Qed.



(** X19: For a caller whose token carries a folder that is a relative name
    without [..] (or no folder), [download_file_auto] reaches no location
    outside the data root, whatever file it is asked for. *)
Theorem download_file_auto_confined {lib : Library} (cfg : config) (req : request)
    (w : world) (tok : jwt) (u : string) (fo : option string) :
  form_token req = Some tok → verify_token cfg (now w) tok = Some (u, fo) →
  match Str.non_empty fo with
  | Some folder => Str.contains ".." folder = false ∧ Str.startswith folder "/" = false
  | None => True
  end →
  confined cfg w (serve (download_file_auto cfg) req w).2 = true.
Proof.
  intros Htok Hver Hplain. rewrite serve_world.
  unfold download_file_auto. rewrite Htok.
  destruct (form req !! "file") as [name|]; [|apply run_confined; stays cfg].
  unfold bind at 1, get_now. rewrite Hver.
  apply run_confined.
  destruct (Str.contains ".." name || Str.contains "/" name || Str.contains "\" name)
    eqn:Hname; [stays cfg|].
  apply orb_false_elim in Hname as [[N1 N2]%orb_false_elim _].
  apply contains_slash_startswith in N2.
  destruct (Str.non_empty fo) as [folder|]; [destruct Hplain as [P1 P2]|];
    stays cfg.
Qed.

Lemma download_file_auto_confined_witness :
  confined shipped demo_world
    (serve (download_file_auto (lib := demo_library) shipped) catalog_request
       demo_world).2 = true.
Proof.
  apply (download_file_auto_confined (lib := demo_library) shipped catalog_request
           demo_world (demo_token "U001" "U001" 1000) "U001" (Some "U001"));
    [reflexivity|reflexivity|split; reflexivity].
Defined.


(** *** The directory of a target *)

Lemma split_slash_elems p : Forall (λ x, Str.split_slash x = [x]) (Str.split_slash p).
Proof.
  induction p as [|c p IH]; simpl.
  - by constructor.
  - case_decide.
    + by constructor.
    + destruct (Str.split_slash p) as [|h t]; [by repeat constructor; simpl; rewrite decide_False|].
      apply Forall_cons in IH as [Hh Ht]. constructor; [|done].
      simpl. rewrite decide_False by done. by rewrite Hh.
Qed.

Lemma split_join_slash l :
  l ≠ [] → Forall (λ x, Str.split_slash x = [x]) l →
  Str.split_slash (Str.join_slash l) = l.
Proof.
  induction l as [|x l IH]; [done|]. intros _ [Hx Hl]%Forall_cons.
  destruct l as [|y l]; [done|].
  change (Str.join_slash (x :: y :: l)) with (x +:+ "/" +:+ Str.join_slash (y :: l)).
  rewrite split_slash_app, Hx, IH by done. done.
Qed.

Lemma foldl_step_empties p l k :
  foldl Path.step p (l ++ replicate k "")%list = foldl Path.step p l.
Proof.
  rewrite foldl_app. generalize (foldl Path.step p l). clear.
  induction k as [|k IH]; intros q; simpl; [done|]. apply IH.
Qed.

Lemma split_rstrip_slash h :
  ∃ k, Str.split_slash h = (Str.split_slash (Path.rstrip_slash h) ++ replicate k "")%list.
Proof.
  induction h as [|c h [k IH]]; [by exists 0|].
  cbn [Str.split_slash Path.rstrip_slash]. rewrite IH.
  destruct (Path.rstrip_slash h) as [|c' r] eqn:Hr.
  - case_decide.
    + exists (S k). reflexivity.
    + exists k. simpl. rewrite decide_False by done. reflexivity.
  - case_decide.
    + exists k. cbn [Str.split_slash].
      rewrite (decide_True (P := c = "/"%char)) by done. reflexivity.
    + exists k. cbn [Str.split_slash].
      rewrite (decide_False (P := c = "/"%char)) by done.
      change (if decide (c' = "/"%char) then "" :: Str.split_slash r
              else match Str.split_slash r with
                   | [] => [String c' ""]
                   | h0 :: t => String c' h0 :: t
                   end) with (Str.split_slash (String c' r)).
      destruct (split_slash_cons (String c' r)) as (h1 & t1 & ->). reflexivity.
Qed.

Lemma rstrip_slash_startswith h :
  Path.rstrip_slash h ≠ "" →
  Str.startswith (Path.rstrip_slash h) "/" = Str.startswith h "/".
Proof.
  destruct h as [|c h]; [done|]. cbn [Path.rstrip_slash].
  destruct (Path.rstrip_slash h); [case_decide|]; done.
Qed.

Lemma resolve_rstrip cw h :
  Path.resolve cw (match Path.rstrip_slash h with "" => h | r => r end)
  = Path.resolve cw h.
Proof.
  destruct (Path.rstrip_slash h) as [|c r] eqn:Hr; [done|].
  unfold Path.resolve. rewrite <-Hr.
  rewrite rstrip_slash_startswith by (by rewrite Hr).
  destruct (split_rstrip_slash h) as [k ->]. by rewrite foldl_step_empties.
Qed.

Lemma split_single_relative p x :
  Str.split_slash p = [x] → Str.startswith p "/" = false.
Proof.
  destruct p as [|c p]; [done|]. cbn [Str.split_slash Str.startswith].
  case_decide as Hc.
  - by destruct (split_slash_cons p) as (h & t & ->).
  - intros _. by rewrite decide_False by congruence.
Qed.

Lemma Forall_removelast {A} (P : A → Prop) l : Forall P l → Forall P (removelast l).
Proof.
  induction 1 as [|x l Hx Hl IH]; simpl; [done|].
  destruct l; [done|]. by constructor.
Qed.

Lemma elem_of_removelast {A} (x : A) l : x ∈ removelast l → x ∈ l.
Proof.
  induction l as [|y l IH]; simpl; [done|].
  destruct l as [|z l]; [by intros ?%elem_of_nil|].
  intros [->|Hx]%elem_of_cons; [left|right; by apply IH].
Qed.

(** Whether a path with a separator is absolute shows in its first segment. *)
Lemma startswith_slash_segments p x y l :
  Str.split_slash p = x :: y :: l → Str.startswith p "/" = bool_decide (x = "").
Proof.
  destruct p as [|c p]; [done|]. cbn [Str.split_slash Str.startswith].
  case_decide as Hc.
  - intros [= <- _]. by rewrite decide_True by done.
  - rewrite decide_False by congruence.
    destruct (split_slash_cons p) as (h & t & ->). by intros [= <- _].
Qed.

Lemma startswith_slash_joined x l :
  Str.split_slash x = [x] →
  Str.startswith (Str.join_slash (x :: l) +:+ "/") "/" = bool_decide (x = "").
Proof.
  intros Hx. destruct x as [|c x].
  - by destruct l.
  - assert (c ≠ "/"%char) as Hc.
    { intros ->. simpl in Hx. by destruct (split_slash_cons x) as (h & t & Heq);
        rewrite Heq in Hx. }
    destruct l; cbn [Str.join_slash]; rewrite ?string_app_assoc;
      change (String c x +:+ ?b) with (String c (x +:+ b));
      cbn [Str.startswith]; by rewrite decide_False by congruence.
Qed.

(** The location of [dirname p] is that of [p] without its last segment. *)
Lemma resolve_dirname cw p :
  Path.resolve cw (Path.dirname p)
  = foldl Path.step (if Str.startswith p "/" then [] else cw)
      (removelast (Str.split_slash p)).
Proof.
  unfold Path.dirname. cbv zeta. rewrite resolve_rstrip.
  pose proof (split_slash_elems p) as Hel.
  destruct (Str.split_slash p) as [|x [|y l]] eqn:Hp.
  - destruct (split_slash_cons p) as (? & ? & ?). congruence.
  - by rewrite (split_single_relative p x Hp).
  - rewrite (startswith_slash_segments p x y l Hp).
    set (l0 := removelast (x :: y :: l)).
    assert (Hl0 : l0 = x :: removelast (y :: l)) by done.
    assert (Hel0 : Forall (λ x, Str.split_slash x = [x]) l0)
      by (by apply Forall_removelast).
    unfold Path.resolve.
    replace (Str.startswith (Str.join_slash l0 +:+ "/") "/")
      with (bool_decide (x = "")).
    2:{ rewrite Hl0. symmetry. apply startswith_slash_joined.
        by apply Forall_cons in Hel as [? _]. }
    replace (Str.join_slash l0 +:+ "/") with (Str.join_slash l0 +:+ "/" +:+ "") by done.
    rewrite split_slash_app, split_join_slash by (by rewrite ?Hl0).
    by rewrite foldl_app.
Qed.

(** The directory of a relative target without [..] joined to a directory
    stays below that directory. *)
Lemma dirname_confined cw base t :
  Str.contains ".." t = false → Str.startswith t "/" = false →
  Path.under (Path.resolve cw base)
    (Path.resolve cw (Path.dirname (Path.join base t))) = true.
Proof.
  intros Hno Hrel.
  assert (Hsegs : ".." ∉ removelast (Str.split_slash t)).
  { intros Hin%elem_of_removelast. apply parent_segment_contains in Hin. congruence. }
  assert (Hne : Str.split_slash t ≠ []).
  { by destruct (split_slash_cons t) as (h & tl & ->). }
  rewrite resolve_dirname. unfold Path.join. rewrite Hrel. unfold Path.resolve.
  case_bool_decide as Hbase; cbn [orb].
  - subst base. change ("" +:+ t) with t. rewrite Hrel.
    replace (foldl Path.step (if Str.startswith "" "/" then [] else cw)
               (Str.split_slash "")) with cw by reflexivity.
    destruct (foldl_step_extends cw _ Hsegs) as [ext ->]. apply under_app.
  - destruct (Str.endswith_char base "/") eqn:Hend.
    + apply endswith_char_inv in Hend as [b' ->].
      rewrite string_app_assoc.
      replace (b' +:+ "/") with (b' +:+ "/" +:+ "") by done.
      rewrite !split_slash_app, removelast_app, !foldl_app by done.
      assert (Hstart : Str.startswith (b' +:+ "/" +:+ t) "/"
                       = Str.startswith (b' +:+ "/" +:+ "") "/") by (by destruct b').
      rewrite Hstart.
      change (foldl Path.step ?p (Str.split_slash "")) with p.
      destruct (foldl_step_extends
                  (foldl Path.step
                     (if Str.startswith (b' +:+ "/" +:+ "") "/" then [] else cw)
                     (Str.split_slash b')) _ Hsegs) as [ext ->].
      apply under_app.
    + rewrite split_slash_app, removelast_app, foldl_app by done.
      rewrite (startswith_app_slash base) by done.
      destruct (foldl_step_extends
                  (foldl Path.step (if Str.startswith base "/" then [] else cw)
                     (Str.split_slash base)) _ Hsegs) as [ext ->].
      apply under_app.
Qed.

Lemma dirname_safe cfg t :
  Str.contains ".." t || Str.startswith t "/" = false →
  safe cfg (Path.dirname (Path.join (DATA_HOME cfg) t)).
Proof. intros [H1 H2]%orb_false_elim cw. by apply dirname_confined. Qed.

#[local] Hint Resolve dirname_safe : preserved.

Lemma sync_upload_inside {lib : Library} cfg req :
  preserves (inside cfg) (sync_upload cfg req).
Proof. unfold sync_upload. stays cfg. Qed.

(** X17: Whatever the request, [sync_upload] reaches no location outside the data
    root: the directories it makes and the file it writes lie under
    [DATA_HOME]. *)
Theorem sync_upload_confined {lib : Library} (cfg : config) (req : request)
    (w : world) :
  confined cfg w (serve (sync_upload cfg) req w).2 = true.
Proof. rewrite serve_world. apply run_confined, sync_upload_inside. Qed.


(** ** Uploads *)

(** Storing a file leaves the other regular files as they are. *)
Lemma store_keeps_file n p v n' q c m :
  Tree.store n p v = Some n' → p ≠ [] →
  (∀ es, Tree.lookup n p ≠ Some (Dir es)) →
  Tree.lookup n q = Some (File c m) → q ≠ p →
  Tree.lookup n' q = Some (File c m).
Proof.
  revert n n' q. induction p as [|s rest IH]; [done|].
  intros n n' q Hst _ Hnd Hq Hne. simpl in Hst.
  destruct n as [| |es]; try done.
  destruct q as [|s' q']; [done|]. simpl in Hq.
  destruct rest as [|s2 rest'].
  - injection Hst as <-. simpl. destruct (decide (s = s')) as [<-|Hs].
    + destruct (Tree.get_child es s) as [c0|] eqn:Hc; [|done].
      destruct q' as [|x q'']; [done|].
      destruct c0 as [| |es0]; try done.
      destruct (Hnd es0). simpl. by rewrite Hc.
    + by rewrite get_set_child_ne.
  - destruct (Tree.get_child es s) as [c0|] eqn:Hc; [|done].
    destruct (Tree.store c0 (s2 :: rest') v) as [c'|] eqn:Hst'; [|done].
    injection Hst as <-. cbn [Tree.lookup].
    destruct (decide (s = s')) as [<-|Hs].
    + rewrite get_set_child. rewrite Hc in Hq.
      eapply IH; [exact Hst'|done| |exact Hq|congruence].
      intros es0 Hl. apply (Hnd es0). simpl. by rewrite Hc.
    + by rewrite get_set_child_ne.
Qed.

Lemma save_keeps data s w w' q c m :
  save data s w = (Return (), w') →
  node_at w q = Some (File c m) →
  Path.resolve (cwd w) q ≠ Path.resolve (cwd w) s →
  node_at w' q = Some (File c m).
Proof.
  unfold save, with_world, locate, bind, touch, raise, set_fs, node_at, locate.
  simpl. intros Hrun Hq Hne. revert Hrun.
  set (p := Path.resolve (cwd w) s) in *.
  destruct (Tree.lookup (fs w) p) as [[| |es]|] eqn:Hp; try (by intros [=]);
    (destruct (Tree.lookup (fs w) (removelast p)) as [[| |es']|] eqn:Hpar;
       try (by intros [=]));
    (destruct (Tree.store (fs w) p (File data (now w))) as [t|] eqn:Hst;
       [|by intros [=]]);
    intros [= <-]; simpl;
    (eapply store_keeps_file;
       [exact Hst| |intros ?; by rewrite Hp|exact Hq|exact Hne]);
    intros Hp0; rewrite Hp0 in Hpar, Hp; simpl in *; congruence.
Qed.

Lemma save_keeps_files data s w w' q :
  save data s w = (Return (), w') → is_file w q = true → is_file w' q = true.
Proof.
  intros Hrun Hq.
  destruct (decide (Path.resolve (cwd w) q = Path.resolve (cwd w) s)) as [Heq|Hne].
  - destruct (save_run _ _ _ _ Hrun) as (Hb & Hc & _).
    unfold is_file, file_bytes, node_at, locate in *. simpl in *.
    rewrite Hc, Heq. rewrite Hc in Hb.
    by destruct (Tree.lookup (fs w') (Path.resolve (cwd w) s)) as [[]|].
  - unfold is_file in *.
    destruct (node_at w q) as [[c m| |]|] eqn:Hn; try done.
    by rewrite (save_keeps _ _ _ _ _ _ _ Hrun Hn Hne).
Qed.

Lemma truthy_filename f : Str.truthy (Some (filename f)) = bool_decide (filename f ≠ "").
Proof. destruct (filename f); by case_bool_decide. Qed.

(** The loop of [upload_files] over the keys [ks], started with [acc]. *)
Lemma upload_loop files0 upload_dir ks acc w l w' :
  fold_each ks acc (λ uploaded_files key,
      match files_get files0 key with
      | Some file =>
          if Str.truthy (Some (filename file)) then
            bind (save (stream file) (Path.join upload_dir (filename file)))
              (λ _, ret (uploaded_files ++ [filename file])%list)
          else ret uploaded_files
      | None => raise (KeyError key)
      end) w = (Return l, w') →
  let sent := filter (λ f, filename f ≠ "") (omap (files_get files0) ks) in
  let at_ f := Path.join upload_dir (filename f) in
  l = (acc ++ (filename <$> sent))%list ∧ cwd w' = cwd w
  ∧ (∀ q, is_file w q = true → is_file w' q = true)
  ∧ (∀ q c m, node_at w q = Some (File c m) →
       (∀ f, f ∈ sent → Path.resolve (cwd w) (at_ f) ≠ Path.resolve (cwd w) q) →
       node_at w' q = Some (File c m))
  ∧ (∀ i f, sent !! i = Some f →
       is_file w' (at_ f) = true
       ∧ ((∀ j f', i < j → sent !! j = Some f' →
             Path.resolve (cwd w) (at_ f') ≠ Path.resolve (cwd w) (at_ f)) →
          file_bytes w' (at_ f) = Some (stream f))).
Proof.
  revert acc w. induction ks as [|k ks IH]; intros acc w; cbn [fold_each].
  - intros [= <- <-]. cbn zeta. rewrite app_nil_r. split_and!; done.
  - unfold bind at 1. destruct (files_get files0 k) as [f|] eqn:Hk; [|by intros [=]].
    cbn zeta. cbn [omap list_omap]. rewrite Hk, filter_cons, truthy_filename.
    case_bool_decide as Hname.
    + rewrite decide_True by done. unfold bind at 1.
      destruct (save (stream f) (Path.join upload_dir (filename f)) w)
        as [[[]|e] w1] eqn:Hsave; [|by intros [=]].
      unfold ret at 1. intros Hrest.
      destruct (IH _ _ Hrest) as (Hl & Hc & Hfiles & Hkeep & Hsent).
      destruct (save_run _ _ _ _ Hsave) as (Hbytes & Hc1 & _).
      rewrite Hc1 in *.
      split_and!.
      * by rewrite Hl, <-app_assoc.
      * done.
      * intros q Hq. apply Hfiles. by eapply save_keeps_files.
      * intros q c m Hq Hne. apply Hkeep.
        -- eapply save_keeps; [done..|]. intros Heq. eapply Hne; [by left|done].
        -- intros f' Hf'. apply Hne. by right.
      * intros [|i] f' Hi; simpl in Hi.
        -- injection Hi as <-. split.
           ++ apply Hfiles. unfold is_file, file_bytes in *.
              by destruct (node_at w1 _) as [[]|].
           ++ intros Hlater. unfold file_bytes in Hbytes |- *.
              destruct (node_at w1 (Path.join upload_dir (filename f)))
                as [[c m| |]|] eqn:Hn; try done.
              injection Hbytes as ->.
              rewrite (Hkeep _ _ _ Hn); [done|].
              intros f' [j Hj]%list_elem_of_lookup. apply (Hlater (S j)); [lia|done].
        -- destruct (Hsent i f' Hi) as [Hfile Hdata]. split; [done|].
           intros Hlater. apply Hdata. intros j f'' Hij Hj.
           apply (Hlater (S j)); [lia|done].
    + rewrite decide_False by (intros Hne; by apply Hne). unfold ret at 1. apply IH.
Qed.




(** ** From the listing to the download *)

Lemma plain_names_child es s c :
  plain_names (Dir es) = true → Tree.get_child es s = Some c →
  plain_names c = true.
Proof.
  simpl. induction es as [|[k c'] es IH]; simpl; [done|].
  intros [[_ Hc]%andb_true_iff Hall]%andb_true_iff.
  case_decide; [by intros [= <-]|]. by apply IH.
Qed.

Lemma plain_names_lookup n p m :
  plain_names n = true → Tree.lookup n p = Some m → plain_names m = true.
Proof.
  revert n. induction p as [|s rest IH]; intros n Hn; simpl; [by intros [= <-]|].
  destruct n as [| |es]; try done.
  destruct (Tree.get_child es s) as [c|] eqn:Hc; [|done].
  apply IH. by eapply plain_names_child.
Qed.

Lemma plain_names_entries es x :
  plain_names (Dir es) = true → x ∈ es.*1 → Str.contains "/" x = false.
Proof.
  simpl. induction es as [|[k c] es IH]; simpl; [by intros _ ?%elem_of_nil|].
  intros [[Hk _]%andb_true_iff Hall]%andb_true_iff [->|Hx]%elem_of_cons.
  - by apply negb_true_iff.
  - by apply IH.
Qed.

Lemma os_listdir_run s w names w' :
  os_listdir s w = (Return names, w') →
  (∃ es, node_at w s = Some (Dir es) ∧ names = es.*1)
  ∧ cwd w' = cwd w ∧ fs w' = fs w ∧ now w' = now w.
Proof.
  unfold os_listdir, with_world, node_at, locate, bind, touch, ret, raise. simpl.
  destruct (Tree.lookup (fs w) (Path.resolve (cwd w) s)) as [[| |es]|];
    try (by intros [=]).
  intros [= <- <-]. split; [by exists es|done].
Qed.

(** The loop of [list_downloads] over the entries of a directory. *)
Lemma listing_loop dir (name : string → string) items acc w l w' :
  fold_each items acc (λ files item,
      bind (os_path_isfile (Path.join dir item))
        (λ b, ret (if b then (files ++ [name item])%list else files))) w
  = (Return l, w') →
  cwd w' = cwd w ∧ fs w' = fs w ∧ now w' = now w
  ∧ ∀ p, p ∈ l →
      p ∈ acc
      ∨ ∃ item, item ∈ items ∧ p = name item
                ∧ is_file w (Path.join dir item) = true.
Proof.
  revert acc w. induction items as [|item items IH]; intros acc w; cbn [fold_each].
  - intros [= <- <-]. split_and!; try done. by left.
  - unfold bind at 1 2.
    destruct (os_path_isfile_run (Path.join dir item) w)
      as (w1 & -> & Hc & Hf & Hn & _).
    unfold ret at 1. intros Hrest.
    destruct (IH _ _ Hrest) as (Hc' & Hf' & Hn' & Hl).
    split_and!; [congruence..|].
    intros p Hp. destruct (Hl p Hp) as [Hacc|(it & Hit & -> & Hfile)].
    + destruct (is_file w (Path.join dir item)) eqn:Hfile.
      * apply elem_of_app in Hacc as [Hacc|Hnew%list_elem_of_singleton]; [by left|].
        right. exists item. split_and!; [by left|done..].
      * by left.
    + right. exists it. split_and!; [by right|done|].
      unfold is_file in *. by rewrite <-(node_at_same w w1).
Qed.

Lemma endswith_char_app a b c :
  b ≠ "" → Str.endswith_char (a +:+ b) c = Str.endswith_char b c.
Proof.
  intros Hb. induction a as [|x a IH]; [done|].
  change (String x a +:+ b) with (String x (a +:+ b)). cbn [Str.endswith_char].
  destruct (a +:+ b) eqn:Hab; [|done].
  by destruct a, b.
Qed.

Lemma contains_slash_endswith s :
  Str.contains "/" s = false → Str.endswith_char s "/" = false.
Proof.
  induction s as [|x s IH]; [done|]. cbn [Str.contains Str.startswith].
  intros [Hx Hs]%orb_false_elim. cbn [Str.endswith_char].
  destruct s; [|by apply IH].
  case_bool_decide; [|done]. subst x. by rewrite decide_True in Hx.
Qed.

Lemma startswith_app a b : Str.startswith (a +:+ b) a = true.
Proof.
  induction a as [|x a IH]; [by destruct b|].
  change (String x a +:+ b) with (String x (a +:+ b)). cbn [Str.startswith].
  by rewrite decide_True.
Qed.

Lemma startswith_inv s pre :
  Str.startswith s pre = true → ∃ rest, s = pre +:+ rest.
Proof.
  revert s. induction pre as [|a pre IH]; intros s; [by exists s|].
  cbn [Str.startswith]. destruct s as [|b s]; [done|].
  case_decide; [|done]. subst b. intros [rest ->]%IH. by exists rest.
Qed.

(** Joining in two steps or in one gives the same path string. *)
Lemma join_join a b c :
  b ≠ "" → Str.startswith b "/" = false → Str.endswith_char b "/" = false →
  Str.startswith c "/" = false →
  Path.join (Path.join a b) c = Path.join a (b +:+ "/" +:+ c).
Proof.
  intros Hb Hrel Hend Hc. unfold Path.join.
  rewrite Hrel, Hc, (startswith_app_slash b) by done. rewrite Hrel.
  destruct (bool_decide (a = "") || Str.endswith_char a "/").
  - rewrite bool_decide_eq_false_2 by (by destruct a, b).
    rewrite endswith_char_app, Hend by done. cbn [orb].
    by rewrite string_app_assoc.
  - rewrite bool_decide_eq_false_2 by (by destruct a).
    rewrite string_app_assoc.
    rewrite (endswith_char_app a ("/" +:+ b)) by done.
    rewrite (endswith_char_app "/" b), Hend by done. cbn [orb].
    by rewrite !string_app_assoc.
Qed.

Lemma join_downloads cfg item :
  Str.startswith item "/" = false →
  Path.join (Path.join_all (DATA_HOME cfg) ["downloads"]) item
  = Path.join (DATA_HOME cfg) ("downloads/" +:+ item).
Proof. intros Hi. cbn [Path.join_all foldl]. by rewrite join_join. Qed.

Lemma join_user_downloads cfg folder item :
  folder ≠ "" → Str.contains "/" folder = false → Str.startswith item "/" = false →
  Path.join (Path.join_all (DATA_HOME cfg) ["downloads"; "users"; folder]) item
  = Path.join (DATA_HOME cfg) ("downloads/users/" +:+ folder +:+ "/" +:+ item).
Proof.
  intros Hne Hf Hi. cbn [Path.join_all foldl].
  pose proof (contains_slash_startswith _ Hf) as Hrel.
  pose proof (contains_slash_endswith _ Hf) as Hend.
  rewrite (join_join _ "downloads" "users") by done.
  rewrite (join_join _ ("downloads" +:+ "/" +:+ "users") folder) by done.
  rewrite join_join; [|by destruct folder|done| |done].
  - f_equal; by rewrite ?string_app_assoc.
  - rewrite (endswith_char_app _ ("/" +:+ folder)) by done.
    by rewrite (endswith_char_app "/" folder).
Qed.

(** What a successful [list_downloads] lists: regular files of the global
    download directory and of the caller's folder. *)
Lemma list_downloads_listing {lib : Library} cfg req w msg l w' tok u fo :
  serve (list_downloads cfg) req w = (jsonify false msg (FilesBody l), w') →
  form_token req = Some tok → verify_token cfg (now w) tok = Some (u, fo) →
  cwd w' = cwd w ∧ fs w' = fs w ∧ now w' = now w
  ∧ ∀ p, p ∈ l →
      (∃ es item,
          node_at w (Path.join_all (DATA_HOME cfg) ["downloads"]) = Some (Dir es)
          ∧ item ∈ es.*1 ∧ p = "downloads/" +:+ item
          ∧ is_file w (Path.join (Path.join_all (DATA_HOME cfg) ["downloads"]) item)
            = true)
      ∨ (∃ folder es item,
          Str.non_empty fo = Some folder
          ∧ node_at w (Path.join_all (DATA_HOME cfg) ["downloads"; "users"; folder])
            = Some (Dir es)
          ∧ item ∈ es.*1 ∧ p = "downloads/users/" +:+ folder +:+ "/" +:+ item
          ∧ is_file w
              (Path.join (Path.join_all (DATA_HOME cfg) ["downloads"; "users"; folder])
                 item) = true).
Proof.
  intros Hok Htok Hver. revert Hok. unfold serve, list_downloads. rewrite Htok.
  unfold bind at 1, get_now. rewrite Hver. cbv zeta.
  set (ddir := Path.join_all (DATA_HOME cfg) ["downloads"]).
  unfold bind at 1.
  destruct (os_path_exists_run ddir w) as (w1 & -> & Hc1 & Hf1 & Hn1 & _).
  unfold bind at 1.
  set (first := if match node_at w ddir with
                   | Some (File _ _) | Some (Dir _) => true
                   | _ => false
                   end then _ else _).
  destruct (first w1) as [[l1|e] w2] eqn:Hfirst; [|by intros [=]].
  assert (H1 : cwd w2 = cwd w ∧ fs w2 = fs w ∧ now w2 = now w
               ∧ ∀ p, p ∈ l1 →
                   ∃ es item, node_at w ddir = Some (Dir es) ∧ item ∈ es.*1
                     ∧ p = "downloads/" +:+ item
                     ∧ is_file w (Path.join ddir item) = true).
  { subst first. revert Hfirst.
    destruct (match node_at w ddir with
              | Some (File _ _) | Some (Dir _) => true
              | _ => false
              end).
    - unfold bind at 1.
      destruct (os_listdir ddir w1) as [[names|e] w1'] eqn:Hls; [|by intros [=]].
      apply os_listdir_run in Hls as ((es & Hes & ->) & Hc & Hf & Hn).
      intros (Hc' & Hf' & Hn' & Hl)%listing_loop.
      split_and!; [congruence..|].
      intros p Hp. destruct (Hl p Hp) as [Hnil|(item & Hitem & -> & Hfile)];
        [by apply elem_of_nil in Hnil|].
      exists es, item. split_and!; [|done..|].
      + by rewrite <-(node_at_same w w1 ddir Hc1 Hf1).
      + unfold is_file in *.
        by rewrite <-(node_at_same w w1 _ Hc1 Hf1), <-(node_at_same w1 w1' _ Hc Hf).
    - intros [= <- <-]. split_and!; [done..|]. by intros p Hp%elem_of_nil. }
  destruct H1 as (Hc2 & Hf2 & Hn2 & Hl1). clear Hfirst first.
  unfold bind at 1.
  set (second := match Str.non_empty fo with Some _ => _ | None => _ end).
  destruct (second w2) as [[l2|e] w3] eqn:Hsecond; [|by intros [=]].
  unfold bind, log_sync_operation, ret. intros [= _ <- <-].
  revert Hsecond. subst second.
  destruct (Str.non_empty fo) as [folder|] eqn:Hfo.
  - set (udir := Path.join_all (DATA_HOME cfg) ["downloads"; "users"; folder]).
    unfold bind at 1.
    destruct (os_path_exists_run udir w2) as (w2a & -> & Hca & Hfa & Hna & _).
    destruct (match node_at w2 udir with
              | Some (File _ _) | Some (Dir _) => true
              | _ => false
              end).
    + unfold bind at 1.
      destruct (os_listdir udir w2a) as [[names|e] w2b] eqn:Hls; [|by intros [=]].
      apply os_listdir_run in Hls as ((es & Hes & ->) & Hcb & Hfb & Hnb).
      intros (Hc' & Hf' & Hn' & Hl)%listing_loop.
      split_and!; [simpl; congruence..|].
      intros p Hp. destruct (Hl p Hp) as [Hacc|(item & Hitem & -> & Hfile)];
        [left; by apply Hl1|].
      right. exists folder, es, item. split_and!; [done| |done..|].
      * rewrite <-Hes. symmetry. apply node_at_same; congruence.
      * unfold is_file in *.
        rewrite <-(node_at_same w w2b) by congruence. exact Hfile.
    + intros [= <- <-]. split_and!; [simpl; congruence..|].
      intros p Hp. left. by apply Hl1.
  - intros [= <- <-]. split_and!; [done..|]. intros p Hp. left. by apply Hl1.
Qed.

(** X22: Whatever [list_downloads] lists can be fetched: in a tree whose entry
    names hold no separator, and for a caller whose folder holds none,
    [download_file] called with the same token for a listed path passes the
    access test and sends the bytes of the file that was listed. *)
Theorem listed_is_downloadable {lib : Library} (cfg : config) (req req2 : request)
    (w w' : world) (msg : string) (l : list string) (tok : jwt) (u : string)
    (fo : option string) (p : string) :
  serve (list_downloads cfg) req w = (jsonify false msg (FilesBody l), w') →
  form_token req = Some tok → verify_token cfg (now w) tok = Some (u, fo) →
  plain_names (fs w) = true →
  match Str.non_empty fo with
  | Some folder => Str.contains "/" folder = false
  | None => True
  end →
  p ∈ l → form_token req2 = Some tok → form req2 !! "file" = Some p →
  download_allowed p fo = true
  ∧ ∃ c, file_bytes w (Path.join (DATA_HOME cfg) p) = Some c
         ∧ (serve (download_file cfg) req2 w').1 = send_file_response c.
Proof.
  intros Hok Htok Hver Hplain Hfolder Hp Htok2 Hfile2.
  destruct (list_downloads_listing cfg req w msg l w' tok u fo Hok Htok Hver)
    as (Hc & Hf & Hn & Hl).
  assert (Hitem : ∀ d es item, node_at w d = Some (Dir es) → item ∈ es.*1 →
                    Str.contains "/" item = false).
  { intros d es item Hd Hin. eapply plain_names_entries; [|done].
    eapply plain_names_lookup; [exact Hplain|exact Hd]. }
  assert (Hgoal : download_allowed p fo = true
                  ∧ is_file w (Path.join (DATA_HOME cfg) p) = true).
  { destruct (Hl p Hp) as [(es & item & Hd & Hin & -> & Hisf)
                          |(folder & es & item & Hfo & Hd & Hin & -> & Hisf)].
    - pose proof (Hitem _ _ _ Hd Hin) as Hs.
      rewrite join_downloads in Hisf by (by apply contains_slash_startswith).
      split; [|done]. unfold download_allowed.
      assert (Str.startswith ("downloads/" +:+ item) "downloads/users/" = false) as ->.
      { destruct (Str.startswith ("downloads/" +:+ item) "downloads/users/") eqn:Hu;
          [|done].
        apply (startswith_inv _ "downloads/users/") in Hu as [rest Hrest].
        assert (item = "users/" +:+ rest) as -> by (by injection Hrest).
        by vm_compute in Hs. }
      done.
    - pose proof (Hitem _ _ _ Hd Hin) as Hs. rewrite Hfo in Hfolder.
      rewrite join_user_downloads in Hisf;
        [|by destruct fo as [[]|]; simplify_eq/=|done
         |by apply contains_slash_startswith].
      split; [|done]. unfold download_allowed. rewrite Hfo.
      replace ("downloads/users/" +:+ folder +:+ "/" +:+ item)
        with (("downloads/users/" +:+ folder +:+ "/") +:+ item)
        by (by rewrite !string_app_assoc).
      rewrite startswith_app, orb_true_r, andb_true_r.
      by rewrite !string_app_assoc. }
  destruct Hgoal as [Hallowed Hisfile]. split; [done|].
  rewrite is_file_bytes in Hisfile. apply bool_decide_eq_true in Hisfile as [c Hbytes].
  exists c. split; [done|].
  rewrite (download_file_reply cfg req2 w' tok p u fo Htok2 Hfile2)
    by (by rewrite Hn).
  rewrite Hallowed. unfold file_bytes in *.
  by rewrite (node_at_same w w'), Hbytes.
Qed.

Lemma listed_is_downloadable_witness :
  download_allowed "downloads/users/U001/catalog.csv" (Some "U001") = true
  ∧ ∃ c, file_bytes demo_world
           (Path.join (DATA_HOME shipped) "downloads/users/U001/catalog.csv") = Some c
         ∧ (serve (download_file (lib := demo_library) shipped) own_catalog_request
              (serve (list_downloads (lib := demo_library) shipped) listing_request
                 demo_world).2).1
           = send_file_response c.
Proof.
  apply (listed_is_downloadable (lib := demo_library) shipped listing_request
           own_catalog_request demo_world
           (serve (list_downloads (lib := demo_library) shipped) listing_request
              demo_world).2
           "Files available for download."
           ["downloads/catalog.csv"; "downloads/prices.csv";
            "downloads/users/U001/catalog.csv"]
           (demo_token "U001" "U001" 1000) "U001" (Some "U001"));
    try (vm_compute; reflexivity).
  set_solver.
Defined.


(** ** From the upload to the listing of uploads *)

Lemma split_slash_plain s : Str.contains "/" s = false → Str.split_slash s = [s].
Proof.
  induction s as [|c s IH]; [done|]. cbn [Str.contains Str.startswith].
  intros [Hc Hs]%orb_false_elim. cbn [Str.split_slash].
  rewrite decide_False by (intros ->; by rewrite decide_True in Hc).
  by rewrite IH.
Qed.

Lemma plain_name_inv s :
  plain_name s = true →
  Str.contains "/" s = false ∧ s ≠ "" ∧ s ≠ "." ∧ s ≠ "..".
Proof.
  unfold plain_name. rewrite !andb_true_iff, !negb_true_iff.
  intros [[[H1 H2] H3] H4].
  apply bool_decide_eq_false in H2, H3, H4. done.
Qed.

(** A plain name joined to a directory names the entry of that name in it. *)
Lemma resolve_join_name cw base s :
  plain_name s = true →
  Path.resolve cw (Path.join base s) = (Path.resolve cw base ++ [s])%list.
Proof.
  intros (Hs & Hne & Hdot & Hdots)%plain_name_inv.
  pose proof (contains_slash_startswith _ Hs) as Hrel.
  assert (Hstep : ∀ p, foldl Path.step p (Str.split_slash s) = (p ++ [s])%list).
  { intros p. rewrite split_slash_plain by done. simpl. unfold Path.step.
    by rewrite !bool_decide_eq_false_2 by done. }
  unfold Path.join. rewrite Hrel. unfold Path.resolve.
  case_bool_decide as Hbase; cbn [orb].
  - subst base. change ("" +:+ s) with s. by rewrite Hrel, Hstep.
  - destruct (Str.endswith_char base "/") eqn:Hend.
    + apply endswith_char_inv in Hend as [b' ->].
      rewrite string_app_assoc.
      replace (b' +:+ "/") with (b' +:+ "/" +:+ "") by done.
      rewrite !split_slash_app, !foldl_app, Hstep.
      assert (Hstart : Str.startswith (b' +:+ "/" +:+ s) "/"
                       = Str.startswith (b' +:+ "/" +:+ "") "/") by (by destruct b').
      by rewrite Hstart.
    + rewrite split_slash_app, foldl_app, Hstep.
      by rewrite (startswith_app_slash base).
Qed.

Lemma lookup_snoc t p s v :
  Tree.lookup t (p ++ [s]) = Some v →
  ∃ es, Tree.lookup t p = Some (Dir es) ∧ Tree.get_child es s = Some v.
Proof.
  revert t. induction p as [|x p IH]; intros t; simpl.
  - destruct t as [| |es]; try done.
    destruct (Tree.get_child es s) as [c|] eqn:Hc; [|done].
    intros [= <-]. by exists es.
  - destruct t as [| |es]; try done.
    destruct (Tree.get_child es x) as [c|]; [|done]. apply IH.
Qed.

Lemma get_child_elem es s v : Tree.get_child es s = Some v → s ∈ es.*1.
Proof.
  induction es as [|[k c] es IH]; simpl; [done|].
  case_decide; [subst; by left|]. intros Hv. right. by apply IH.
Qed.

(** What is under a plain name of a directory is listed in it. *)
Lemma entry_listed w base s v :
  plain_name s = true → node_at w (Path.join base s) = Some v →
  dir_at w base = true ∧ s ∈ listing_of w base.
Proof.
  intros Hs. unfold node_at, dir_at, listing_of, node_at, locate. simpl.
  rewrite resolve_join_name by done.
  intros (es & -> & Hc)%lookup_snoc. split; [done|]. by eapply get_child_elem.
Qed.

Lemma os_path_isdir_run s w :
  ∃ w', os_path_isdir s w = (Return (dir_at w s), w')
        ∧ cwd w' = cwd w ∧ fs w' = fs w ∧ now w' = now w.
Proof.
  unfold os_path_isdir, with_world, dir_at, node_at, locate, bind, touch, ret.
  simpl. eexists. split_and!; [reflexivity|..]; done.
Qed.

Lemma os_listdir_dir s w :
  dir_at w s = true →
  ∃ w', os_listdir s w = (Return (listing_of w s), w')
        ∧ cwd w' = cwd w ∧ fs w' = fs w ∧ now w' = now w.
Proof.
  unfold os_listdir, with_world, dir_at, listing_of, node_at, locate, bind, touch,
    ret, raise. simpl.
  destruct (Tree.lookup (fs w) (Path.resolve (cwd w) s)) as [[| |es]|]; try done.
  intros _. eexists. split_and!; [reflexivity|..]; done.
Qed.

Lemma is_file_same w w' s :
  cwd w' = cwd w → fs w' = fs w → is_file w' s = is_file w s.
Proof. intros Hc Hf. unfold is_file. by rewrite (node_at_same w w'). Qed.

Lemma dir_at_same w w' s :
  cwd w' = cwd w → fs w' = fs w → dir_at w' s = dir_at w s.
Proof. intros Hc Hf. unfold dir_at. by rewrite (node_at_same w w'). Qed.

Lemma listing_of_same w w' s :
  cwd w' = cwd w → fs w' = fs w → listing_of w' s = listing_of w s.
Proof. intros Hc Hf. unfold listing_of. by rewrite (node_at_same w w'). Qed.

(** The inner loop of [list_uploads] keeps the regular files. *)
Lemma files_loop_run path items acc w :
  ∃ w', fold_each items acc (λ found f,
            bind (os_path_isfile (Path.join path f))
              (λ b, ret (if b then (found ++ [f])%list else found))) w
        = (Return (acc ++ filter (λ f, is_file w (Path.join path f) = true) items)%list,
           w')
        ∧ cwd w' = cwd w ∧ fs w' = fs w ∧ now w' = now w.
Proof.
  revert acc w. induction items as [|f items IH]; intros acc w; cbn [fold_each].
  - exists w. by rewrite app_nil_r.
  - unfold bind at 1 2.
    destruct (os_path_isfile_run (Path.join path f) w)
      as (w1 & -> & Hc & Hf & Hn & _).
    unfold ret at 1.
    destruct (IH (if is_file w (Path.join path f) then (acc ++ [f])%list else acc) w1)
      as (w2 & -> & Hc2 & Hf2 & Hn2).
    exists w2. split_and!; [|congruence..]. f_equal. f_equal.
    rewrite filter_cons.
    assert (Hsame : filter (λ f0, is_file w1 (Path.join path f0) = true) items
                    = filter (λ f0, is_file w (Path.join path f0) = true) items).
    { apply list_filter_iff. intros x. by rewrite (is_file_same w w1). }
    rewrite Hsame.
    destruct (is_file w (Path.join path f)) eqn:Hfile.
    + rewrite decide_True by done. by rewrite <-app_assoc.
    + by rewrite decide_False by done.
Qed.

Lemma uploads_entry_same w w' dir all name :
  cwd w' = cwd w → fs w' = fs w →
  uploads_entry w' dir all name = uploads_entry w dir all name.
Proof.
  intros Hc Hf. unfold uploads_entry. cbv zeta.
  rewrite (dir_at_same w w'), (listing_of_same w w') by done.
  destruct (dir_at w (Path.join dir name)); [|done].
  assert (Hsame :
    filter (λ f, is_file w' (Path.join (Path.join dir name) f) = true)
      (listing_of w (Path.join dir name))
    = filter (λ f, is_file w (Path.join (Path.join dir name) f) = true)
        (listing_of w (Path.join dir name))).
  { apply list_filter_iff. intros y. by rewrite (is_file_same w w'). }
  by rewrite Hsame.
Qed.

(** The loop of [list_uploads] over the entries of the upload directory. *)
Lemma uploads_loop_run dir names all w :
  ∃ w', fold_each names all (λ all_uploads user_folder_name,
            bind (os_path_isdir (Path.join dir user_folder_name)) (λ d,
              if d then
                bind (os_listdir (Path.join dir user_folder_name)) (λ items,
                  bind (fold_each items [] (λ found f,
                          bind (os_path_isfile
                                  (Path.join (Path.join dir user_folder_name) f))
                            (λ b, ret (if b then (found ++ [f])%list else found))))
                    (λ found,
                       ret (if bool_decide (found = []) then all_uploads
                            else <[user_folder_name := found]> all_uploads)))
              else ret all_uploads)) w
        = (Return (foldl (uploads_entry w dir) all names), w')
        ∧ cwd w' = cwd w ∧ fs w' = fs w ∧ now w' = now w.
Proof.
  revert all w. induction names as [|name names IH]; intros all w; cbn [fold_each].
  - by exists w.
  - unfold bind at 1 2.
    destruct (os_path_isdir_run (Path.join dir name) w)
      as (w1 & -> & Hc1 & Hf1 & Hn1).
    assert (Hent : ∃ w2,
      (if dir_at w (Path.join dir name) then
         bind (os_listdir (Path.join dir name)) (λ items,
           bind (fold_each items [] (λ found f,
                   bind (os_path_isfile (Path.join (Path.join dir name) f))
                     (λ b, ret (if b then (found ++ [f])%list else found))))
             (λ found,
                ret (if bool_decide (found = []) then all
                     else <[name := found]> all)))
       else ret all) w1 = (Return (uploads_entry w dir all name), w2)
      ∧ cwd w2 = cwd w ∧ fs w2 = fs w ∧ now w2 = now w).
    { unfold uploads_entry. cbv zeta.
      destruct (dir_at w (Path.join dir name)) eqn:Hd; [|by exists w1].
      unfold bind at 1.
      destruct (os_listdir_dir (Path.join dir name) w1)
        as (w2 & -> & Hc2 & Hf2 & Hn2); [by rewrite (dir_at_same w w1)|].
      unfold bind at 1.
      destruct (files_loop_run (Path.join dir name)
                  (listing_of w1 (Path.join dir name)) [] w2)
        as (w3 & -> & Hc3 & Hf3 & Hn3).
      exists w3. unfold ret. split_and!; [|congruence..].
      rewrite (listing_of_same w w1) by done. cbn [app].
      assert (Hsame :
        filter (λ f, is_file w2 (Path.join (Path.join dir name) f) = true)
          (listing_of w (Path.join dir name))
        = filter (λ f, is_file w (Path.join (Path.join dir name) f) = true)
            (listing_of w (Path.join dir name))).
      { apply list_filter_iff. intros x.
        rewrite (is_file_same w w2) by congruence. done. }
      by rewrite Hsame. }
    destruct Hent as (w2 & -> & Hc2 & Hf2 & Hn2).
    destruct (IH (uploads_entry w dir all name) w2) as (w3 & -> & Hc3 & Hf3 & Hn3).
    exists w3. split_and!; [|congruence..]. f_equal. f_equal. simpl.
    generalize (uploads_entry w dir all name). clear IH.
    induction names as [|x names IH]; intros a; simpl; [done|].
    by rewrite IH, (uploads_entry_same w w2).
Qed.

(** In the map the loop builds, a folder with a regular file has an entry
    that lists the file. *)
Lemma uploads_fold_listed w dir names all folder n :
  dir_at w (Path.join dir folder) = true →
  n ∈ listing_of w (Path.join dir folder) →
  is_file w (Path.join (Path.join dir folder) n) = true →
  folder ∈ names →
  ∃ found, foldl (uploads_entry w dir) all names !! folder = Some found ∧ n ∈ found.
Proof.
  intros Hd Hn Hfile Hin.
  set (found0 := filter (λ f, is_file w (Path.join (Path.join dir folder) f) = true)
                   (listing_of w (Path.join dir folder))).
  assert (Hn0 : n ∈ found0) by (by apply list_elem_of_filter).
  assert (Hentry : ∀ a, uploads_entry w dir a folder = <[folder := found0]> a).
  { intros a. unfold uploads_entry. cbv zeta. rewrite Hd. fold found0.
    rewrite bool_decide_eq_false_2; [done|]. intros Hnil. rewrite Hnil in Hn0.
    by apply elem_of_nil in Hn0. }
  exists found0. split; [|done].
  assert (Hgen : ∀ a, folder ∈ names ∨ a !! folder = Some found0 →
                      foldl (uploads_entry w dir) a names !! folder = Some found0).
  { clear Hin. induction names as [|x names IH]; intros a; simpl.
    - by intros [?%elem_of_nil|?].
    - intros Hor. apply IH. destruct (decide (x = folder)) as [->|Hx].
      + right. by rewrite Hentry, lookup_insert_eq.
      + destruct Hor as [[?|?]%elem_of_cons|Ha]; [congruence|by left|].
        right. unfold uploads_entry. cbv zeta.
        destruct (dir_at w (Path.join dir x)); [|done].
        case_bool_decide; [done|]. by rewrite lookup_insert_ne. }
  apply Hgen. by left.
Qed.

(** The names a successful [upload_files] lists are regular files of the
    upload directory. *)
Lemma upload_files_files {lib : Library} cfg req w msg l folder w' n :
  serve (upload_files cfg) req w = (jsonify false msg (UploadedBody l folder), w') →
  n ∈ l →
  is_file w' (Path.join (Path.join_all (DATA_HOME cfg) ["uploads"; folder]) n) = true.
Proof.
  unfold serve, upload_files.
  destruct (form_token req) as [tok|]; [|by intros [=]].
  unfold bind at 1, get_now.
  destruct (verify_token cfg (now w) tok) as [[u fo]|]; [|by intros [=]].
  case_bool_decide; [by intros [=]|].
  unfold bind at 1.
  destruct (os_makedirs _ w) as [[[]|e] w1] eqn:Hmk; [|by intros [=]].
  unfold bind at 1.
  destruct (fold_each _ _ _ w1) as [[l0|e] w2] eqn:Hloop; [|by intros [=]].
  unfold bind, log_sync_operation, ret. intros [= _ <- <- <-].
  apply upload_loop in Hloop as (Hl & _ & _ & _ & Hsent).
  cbn zeta in *. rewrite Hl. cbn [app].
  intros (f & -> & [i Hi]%list_elem_of_lookup)%list_elem_of_fmap.
  by destruct (Hsent i f Hi) as [? _].
Qed.

(** X21: What a terminal uploads, the sync client finds: after a successful
    [upload_files] into a folder, [list_uploads] called by a Management
    subject answers with a map that has an entry for the folder, and the
    entry lists every uploaded name (folder and name being plain names). *)
Theorem uploaded_is_listed {lib : Library} (cfg : config) (req req2 : request)
    (w w1 : world) (msg : string) (l : list string) (folder n : string)
    (tok2 : jwt) (u2 : string) (fo2 : option string) :
  serve (upload_files cfg) req w = (jsonify false msg (UploadedBody l folder), w1) →
  n ∈ l → plain_name folder = true → plain_name n = true →
  form_token req2 = Some tok2 → verify_token cfg (now w1) tok2 = Some (u2, fo2) →
  is_management cfg u2 = true →
  ∃ m names,
    (serve (list_uploads cfg) req2 w1).1
    = jsonify false "Upload files listed." (UploadsBody m)
    ∧ m !! folder = Some names ∧ n ∈ names.
Proof.
  intros Hup Hn Hfolder Hname Htok Hver Hm.
  pose proof (upload_files_files cfg req w msg l folder w1 n Hup Hn) as Hfile.
  set (udir := Path.join_all (DATA_HOME cfg) ["uploads"]) in *.
  change (Path.join_all (DATA_HOME cfg) ["uploads"; folder])
    with (Path.join udir folder) in Hfile.
  assert (Hnode : ∃ v, node_at w1 (Path.join (Path.join udir folder) n) = Some v).
  { revert Hfile. unfold is_file.
    destruct (node_at w1 (Path.join (Path.join udir folder) n)) as [v|];
      [by exists v|done]. }
  destruct Hnode as [v Hv].
  destruct (entry_listed _ _ _ _ Hname Hv) as [Hd Hlisted].
  assert (Hnode : ∃ v, node_at w1 (Path.join udir folder) = Some v).
  { revert Hd. unfold dir_at.
    destruct (node_at w1 (Path.join udir folder)) as [v'|]; [by exists v'|done]. }
  destruct Hnode as [v' Hv'].
  destruct (entry_listed _ _ _ _ Hfolder Hv') as [Hud Hflisted].
  unfold serve, list_uploads. rewrite Htok.
  unfold bind at 1, get_now. rewrite Hver, Hm. cbn [negb]. cbv zeta. fold udir.
  unfold bind at 1.
  destruct (os_path_exists_run udir w1) as (wa & -> & Hca & Hfa & Hna & _).
  assert (Hex : match node_at w1 udir with
                | Some (File _ _) | Some (Dir _) => true
                | _ => false
                end = true).
  { revert Hud. unfold dir_at. by destruct (node_at w1 udir) as [[]|]. }
  rewrite Hex. unfold bind at 1. unfold bind at 1.
  destruct (os_listdir_dir udir wa) as (wb & -> & Hcb & Hfb & Hnb);
    [by rewrite (dir_at_same w1 wa)|].
  destruct (uploads_loop_run udir (listing_of wa udir) ∅ wb)
    as (wc & -> & Hcc & Hfc & Hnc).
  unfold bind, log_sync_operation, ret. cbn [fst].
  destruct (uploads_fold_listed wb udir (listing_of wa udir) ∅ folder n)
    as (found & Hfound & Hin).
  - rewrite (dir_at_same w1 wb); [done|congruence..].
  - rewrite (listing_of_same w1 wb); [done|congruence..].
  - rewrite (is_file_same w1 wb); [done|congruence..].
  - by rewrite (listing_of_same w1 wa).
  - by eexists _, found.
Qed.

Lemma uploaded_is_listed_witness :
  ∃ m names,
    (serve (list_uploads (lib := demo_library) shipped) uploads_request
       (serve (upload_files (lib := demo_library) shipped) three_uploads_request
          demo_world).2).1
    = jsonify false "Upload files listed." (UploadsBody m)
    ∧ m !! "U001" = Some names ∧ "a.csv" ∈ names.
Proof.
  apply (uploaded_is_listed (lib := demo_library) shipped three_uploads_request
           uploads_request demo_world
           (serve (upload_files (lib := demo_library) shipped) three_uploads_request
              demo_world).2
           "Files uploaded successfully." ["a.csv"; "b.csv"] "U001" "a.csv"
           (demo_token "sync_client" "sync_client" 1000) "sync_client"
           (Some "sync_client"));
    try (vm_compute; reflexivity).
  set_solver.
Defined.


(** ** The folder listing *)

Lemma dirs_loop_run s items acc w :
  ∃ w', fold_each items acc (λ found d,
            bind (os_path_isdir (Path.join s d))
              (λ b, ret (if b then (found ++ [d])%list else found))) w
        = (Return (acc ++ filter (λ d, dir_at w (Path.join s d) = true) items)%list,
           w')
        ∧ cwd w' = cwd w ∧ fs w' = fs w ∧ now w' = now w.
Proof.
  revert acc w. induction items as [|d items IH]; intros acc w; cbn [fold_each].
  - exists w. by rewrite app_nil_r.
  - unfold bind at 1 2.
    destruct (os_path_isdir_run (Path.join s d) w) as (w1 & -> & Hc & Hf & Hn).
    unfold ret at 1.
    destruct (IH (if dir_at w (Path.join s d) then (acc ++ [d])%list else acc) w1)
      as (w2 & -> & Hc2 & Hf2 & Hn2).
    exists w2. split_and!; [|congruence..]. f_equal. f_equal.
    rewrite filter_cons.
    assert (Hsame : filter (λ d0, dir_at w1 (Path.join s d0) = true) items
                    = filter (λ d0, dir_at w (Path.join s d0) = true) items).
    { apply list_filter_iff. intros x. by rewrite (dir_at_same w w1). }
    rewrite Hsame.
    destruct (dir_at w (Path.join s d)) eqn:Hd.
    + rewrite decide_True by done. by rewrite <-app_assoc.
    + by rewrite decide_False by done.
Qed.

(** The sub-directories of a directory, as the comprehension of
    [list_folders] collects them. *)
Lemma subdirectories_inv s w ds w' :
  subdirectories s w = (Return ds, w') →
  ds = filter (λ d, dir_at w (Path.join s d) = true) (listing_of w s)
  ∧ cwd w' = cwd w ∧ fs w' = fs w ∧ now w' = now w.
Proof.
  unfold subdirectories, bind at 1.
  destruct (os_listdir s w) as [[names|e] w1] eqn:Hls; [|by intros [=]].
  apply os_listdir_run in Hls as ((es & Hes & ->) & Hc & Hf & Hn).
  destruct (dirs_loop_run s es.*1 [] w1) as (w2 & -> & Hc2 & Hf2 & Hn2).
  intros [= <- <-]. split_and!; [|congruence..].
  unfold listing_of. rewrite Hes. cbn [app].
  apply list_filter_iff. intros x. by rewrite (dir_at_same w w1).
Qed.

Lemma subdirectories_run s w :
  dir_at w s = true →
  ∃ w', subdirectories s w
        = (Return (filter (λ d, dir_at w (Path.join s d) = true) (listing_of w s)), w')
        ∧ cwd w' = cwd w ∧ fs w' = fs w ∧ now w' = now w.
Proof.
  intros Hd. unfold subdirectories, bind at 1.
  destruct (os_listdir_dir s w Hd) as (w1 & -> & Hc & Hf & Hn).
  destruct (dirs_loop_run s (listing_of w s) [] w1) as (w2 & -> & Hc2 & Hf2 & Hn2).
  exists w2. split_and!; [|congruence..]. f_equal. f_equal. cbn [app].
  apply list_filter_iff. intros x. by rewrite (dir_at_same w w1).
Qed.

Lemma elem_of_sorted_set x l : x ∈ sorted_set l ↔ x ∈ l.
Proof.
  unfold sorted_set. by rewrite merge_sort_Permutation, elem_of_remove_dups.
Qed.

Lemma string_le_total : Total string_le.
Proof.
  intros a b. unfold string_le, String.leb.
  rewrite (String.compare_antisym b a).
  destruct (String.compare a b); simpl; auto.
Qed.

(** The sub-directories of [s], when there is something at [s]. *)
Lemma listed_subdirectories s w (acc : list string) r w' :
  (if match node_at w s with
      | Some (File _ _) | Some (Dir _) => true
      | _ => false
      end
   then bind (subdirectories s) (λ ds, ret (acc ++ ds)%list)
   else ret acc) w = (Return r, w') →
  r = (acc ++ filter (λ d, dir_at w (Path.join s d) = true) (listing_of w s))%list
  ∧ cwd w' = cwd w ∧ fs w' = fs w ∧ now w' = now w.
Proof.
  unfold listing_of.
  destruct (node_at w s) as [[| |es]|] eqn:Hs.
  - unfold bind, subdirectories, bind, os_listdir, with_world, locate, bind, touch,
      raise. simpl. unfold node_at, locate in Hs. simpl in Hs. by rewrite Hs.
  - intros [= <- <-]. by rewrite app_nil_r.
  - unfold bind at 1.
    destruct (subdirectories s w) as [[ds|e] w1] eqn:Hsub; [|by intros [=]].
    apply subdirectories_inv in Hsub as (-> & Hc & Hf & Hn).
    intros [= <- <-]. unfold listing_of. by rewrite Hs.
  - intros [= <- <-]. by rewrite app_nil_r.
Qed.

(** X23: [list_folders] asks for no token.  When it answers, the folders it lists
    are exactly the sub-directories of [downloads/users] and of [uploads],
    each once and in the order of strings; beside them it gives the
    Management subjects and all the logins of the configuration; the tree is
    left as it was. *)
Theorem list_folders_lists (cfg : config) (keys : list string) (w w' : world)
    (r : folders_reply) :
  list_folders cfg keys w = (Return r, w') →
  let ddir := Path.join_all (DATA_HOME cfg) ["downloads"; "users"] in
  let udir := Path.join_all (DATA_HOME cfg) ["uploads"] in
  (∀ x, x ∈ existing_folders r
        ↔ (x ∈ listing_of w ddir ∧ dir_at w (Path.join ddir x) = true)
          ∨ (x ∈ listing_of w udir ∧ dir_at w (Path.join udir x) = true))
  ∧ NoDup (existing_folders r) ∧ Sorted string_le (existing_folders r)
  ∧ management_users r = MANAGEMENT_USERS cfg ∧ available_logins r = keys
  ∧ fs w' = fs w.
Proof.
  unfold list_folders. cbv zeta.
  set (ddir := Path.join_all (DATA_HOME cfg) ["downloads"; "users"]).
  set (udir := Path.join_all (DATA_HOME cfg) ["uploads"]).
  unfold bind at 1.
  destruct (os_path_exists_run ddir w) as (w1 & -> & Hc1 & Hf1 & Hn1 & _).
  unfold bind at 1.
  destruct ((if match node_at w ddir with
                | Some (File _ _) | Some (Dir _) => true
                | _ => false
                end
             then bind (subdirectories ddir) (λ ds, ret ([] ++ ds)%list)
             else ret []) w1) as [[l1|e] w2] eqn:H1; [|by intros [=]].
  rewrite <-(node_at_same w w1 ddir Hc1 Hf1) in H1.
  apply listed_subdirectories in H1 as (-> & Hc2 & Hf2 & Hn2).
  unfold bind at 1.
  destruct (os_path_exists_run udir w2) as (w3 & -> & Hc3 & Hf3 & Hn3 & _).
  unfold bind at 1.
  destruct ((if match node_at w2 udir with
                | Some (File _ _) | Some (Dir _) => true
                | _ => false
                end
             then bind (subdirectories udir) (λ ds, ret (_ ++ ds)%list)
             else ret _) w3) as [[l2|e] w4] eqn:H2; [|by intros [=]].
  rewrite <-(node_at_same w2 w3 udir Hc3 Hf3) in H2.
  apply listed_subdirectories in H2 as (-> & Hc4 & Hf4 & Hn4).
  unfold ret. intros [= <- <-]. cbn [existing_folders management_users available_logins].
  split_and!; [|..|done|done|congruence].
  - intros x. rewrite elem_of_sorted_set, !elem_of_app, !list_elem_of_filter.
    rewrite (listing_of_same w w1), (listing_of_same w w3) by congruence.
    rewrite (dir_at_same w w1), (dir_at_same w w3) by congruence.
    rewrite ?elem_of_nil. tauto.
  - unfold sorted_set. rewrite merge_sort_Permutation. apply NoDup_remove_dups.
  - apply Sorted_merge_sort, string_le_total.
Qed.

Lemma list_folders_lists_witness :
  let r := {| folders_message := "Available folders and info";
              existing_folders := ["U001"; "U002"; "myuser"];
              management_users := ["androiduser"; "sync_client"];
              restricted_mode := false;
              available_logins := shipped_keys |} in
  let w' := (list_folders shipped shipped_keys demo_world).2 in
  let ddir := Path.join_all (DATA_HOME shipped) ["downloads"; "users"] in
  let udir := Path.join_all (DATA_HOME shipped) ["uploads"] in
  (∀ x, x ∈ existing_folders r
        ↔ (x ∈ listing_of demo_world ddir
           ∧ dir_at demo_world (Path.join ddir x) = true)
          ∨ (x ∈ listing_of demo_world udir
             ∧ dir_at demo_world (Path.join udir x) = true))
  ∧ NoDup (existing_folders r) ∧ Sorted string_le (existing_folders r)
  ∧ management_users r = MANAGEMENT_USERS shipped ∧ available_logins r = shipped_keys
  ∧ fs w' = fs demo_world.
Proof.
  intros r w'.
  apply (list_folders_lists shipped shipped_keys demo_world w' r).
  vm_compute. reflexivity.
Defined.

Lemma create_folder_dirs {lib : Library} cfg req w msg b w' name :
  serve (create_folder cfg) req w = (jsonify false msg b, w') →
  form req !! "folder" = Some name →
  dir_at w' (Path.join_all (DATA_HOME cfg) ["downloads"; "users"; name]) = true
  ∧ dir_at w' (Path.join_all (DATA_HOME cfg) ["uploads"; name]) = true.
Proof.
  intros Hok Hname. revert Hok. unfold serve, create_folder. rewrite Hname.
  destruct (form_token req) as [tok|]; [|by intros [=]].
  unfold bind at 1, get_now.
  destruct (verify_token cfg (now w) tok) as [[u fo]|]; [|by intros [=]].
  destruct (is_management cfg u); cbn [negb]; [|by intros [=]].
  destruct (Str.truthy (Some name)) eqn:Htr; cbn [negb orb]; [|by intros [=]].
  destruct (isalnum _); cbn [negb]; [|by intros [=]].
  unfold bind at 1.
  destruct (ensure_user_directories cfg name w) as [[[]|e] w1] eqn:He;
    [|by intros [=]].
  unfold bind, log_sync_operation, ret. intros [= _ _ <-].
  assert (Hne : name ≠ "") by (by intros ->).
  by destruct (ensure_user_directories_run cfg name w w1 Hne He) as (D1 & D2 & _).
Qed.

(** X24: A folder that [create_folder] has made is one that [list_folders]
    lists (the name being one a directory entry can have). *)
Theorem created_folder_is_listed {lib : Library} (cfg : config) (keys : list string)
    (req : request) (w w' : world) (msg : string) (b : body) (name : string) :
  serve (create_folder cfg) req w = (jsonify false msg b, w') →
  form req !! "folder" = Some name → plain_name name = true →
  ∃ r w'', list_folders cfg keys w' = (Return r, w'') ∧ name ∈ existing_folders r.
Proof.
  intros Hok Hname Hplain.
  destruct (create_folder_dirs cfg req w msg b w' name Hok Hname) as [D1 D2].
  set (ddir := Path.join_all (DATA_HOME cfg) ["downloads"; "users"]) in *.
  set (udir := Path.join_all (DATA_HOME cfg) ["uploads"]) in *.
  change (Path.join_all (DATA_HOME cfg) ["downloads"; "users"; name])
    with (Path.join ddir name) in D1.
  change (Path.join_all (DATA_HOME cfg) ["uploads"; name])
    with (Path.join udir name) in D2.
  assert (Hd : dir_at w' ddir = true ∧ name ∈ listing_of w' ddir).
  { revert D1. unfold dir_at at 1.
    destruct (node_at w' (Path.join ddir name)) as [v|] eqn:Hv; [|done].
    intros _. by eapply entry_listed. }
  assert (Hu : dir_at w' udir = true).
  { revert D2. unfold dir_at at 1.
    destruct (node_at w' (Path.join udir name)) as [v|] eqn:Hv; [|done].
    intros _. by eapply entry_listed. }
  destruct Hd as [Hd Hin].
  assert (Hex : ∀ w0 s, dir_at w0 s = true →
                  match node_at w0 s with
                  | Some (File _ _) | Some (Dir _) => true
                  | _ => false
                  end = true).
  { intros w0 s. unfold dir_at. by destruct (node_at w0 s) as [[]|]. }
  unfold list_folders. cbv zeta. fold ddir udir.
  unfold bind at 1.
  destruct (os_path_exists_run ddir w') as (w1 & -> & Hc1 & Hf1 & Hn1 & _).
  rewrite (Hex _ _ Hd). unfold bind at 1 2.
  destruct (subdirectories_run ddir w1) as (w2 & -> & Hc2 & Hf2 & Hn2);
    [by rewrite (dir_at_same w' w1)|].
  unfold ret at 1. unfold bind at 1.
  destruct (os_path_exists_run udir w2) as (w3 & -> & Hc3 & Hf3 & Hn3 & _).
  rewrite (Hex w2 udir) by (rewrite (dir_at_same w' w2); [done|congruence..]).
  unfold bind at 1 2.
  destruct (subdirectories_run udir w3) as (w4 & -> & Hc4 & Hf4 & Hn4);
    [rewrite (dir_at_same w' w3); [done|congruence..]|].
  unfold ret. eexists _, _. split; [reflexivity|].
  cbn [existing_folders]. rewrite elem_of_sorted_set, !elem_of_app. left. right.
  apply list_elem_of_filter. split.
  - rewrite (dir_at_same w' w1) by done. exact D1.
  - by rewrite (listing_of_same w' w1).
Qed.

Lemma created_folder_is_listed_witness :
  ∃ r w'',
    list_folders shipped shipped_keys
      (serve (create_folder (lib := demo_library) shipped) new_folder_request
         demo_world).2 = (Return r, w'')
    ∧ "T-900" ∈ existing_folders r.
Proof.
  apply (created_folder_is_listed (lib := demo_library) shipped shipped_keys
           new_folder_request demo_world
           (serve (create_folder (lib := demo_library) shipped) new_folder_request
              demo_world).2
           "Folder 'T-900' created successfully." (FolderBody "T-900") "T-900");
    vm_compute; reflexivity.
Defined.


(** ** What the sync handlers leave alone *)






